(** * Turning the lvq-pak data source into a dataset

    A shallow embedding of the code cells of
    [notebooks/22-transform-datasource.ipynb]: the processing-function
    template [process_raw_data], the parser [read_space_delimited] and the
    lvq-pak processing function [process_lvq_pak], together with the parts
    of [pandas.read_csv], of numpy, of [pathlib] and of the text-mode file
    handle that these functions call. *)

From Stdlib Require Import Ascii String.
From stdpp Require Import gmap strings list fin_maps.

Open Scope char_scope.
Open Scope string_scope.
Open Scope list_scope.
Open Scope nat_scope.

(** ** Exceptions and results *)

(** What the tokenizer of [pandas.read_csv] reports inside a [ParserError]. *)
Inductive tokenizer_error :=
| TooManyFields (expected saw : nat)   (* Expected n fields in line l, saw m *)
| EOFInsideString.                     (* EOF inside string starting at row l *)

(** The reasons, other than its absence, for which the system does not open
    a path for reading; each is a subclass of [OSError] or an [OSError]
    with its number. *)
Inductive oserror :=
| IsADirectoryError
| NotADirectoryError
| PermissionError
| OtherOSError (errno : nat).

(** The exceptions that the modelled code can raise. *)
Inductive exn :=
| FileNotFoundError (filename : string)
| OSError (why : oserror) (filename : string)
| UnicodeDecodeError                   (* the file is not text in UTF-8 *)
| EmptyDataError                       (* pandas: No columns to parse from file *)
| ParserError (why : tokenizer_error)  (* pandas: Error tokenizing data *)
| IndexError                           (* index -1 of an empty column index *)
| ValueError                           (* numpy: array dimensions must match;
                                          open: embedded null byte *)
| TypeError                            (* calling an object that is not callable *)
| UnboundLocalError (name : string)    (* local variable read before assignment *)
| Exception (msg : string).            (* raise Exception(msg) *)

Inductive result (A : Type) :=
| Ok (a : A)
| Err (e : exn).
Arguments Ok {A} a.
Arguments Err {A} e.

(** [result] is an error monad; stdpp's [x ← r; k] is its bind. *)
Global Instance result_ret : MRet result := λ A a, Ok a.
Global Instance result_bind : MBind result := λ A B k r,
  match r with
  | Ok a => k a
  | Err e => Err e
  end.
Global Instance result_fmap : FMap result := λ A B f r,
  match r with
  | Ok a => Ok (f a)
  | Err e => Err e
  end.

(** Left fold of a fallible step over the input, stopping at the first error:
    the shape of the tokenizer's loop over the characters of the buffer. *)
Fixpoint foldM {A S : Type} (f : S → A → result S) (s : S) (l : list A) : result S :=
  match l with
  | [] => Ok s
  | a :: l' => s' ← f s a; foldM f s' l'
  end.

(** ** Characters *)

Definition LF : ascii := "010".
Definition CR : ascii := "013".
Definition TAB : ascii := "009".
Definition SPACE : ascii := " ".
Definition QUOTE : ascii := "034".
Definition NUL : ascii := "000".
Definition SLASH : ascii := "/".

(** The UTF-8 byte order mark: the bytes EF BB BF. *)
Definition BOM : list ascii := ["239"%char; "187"%char; "191"%char].

(** C's [isblank]: a space or a horizontal tab. *)
Definition isblank (c : ascii) : bool :=
  bool_decide (c = SPACE) || bool_decide (c = TAB).

(** Cutting a text at every occurrence of [sep]; a text with [n]
    occurrences gives [n + 1] pieces, empty pieces included. *)
Fixpoint split_on (sep : ascii) (l : list ascii) : list (list ascii) :=
  match l with
  | [] => [[]]
  | c :: l' =>
      if bool_decide (c = sep) then [] :: split_on sep l'
      else match split_on sep l' with
           | piece :: pieces => (c :: piece) :: pieces
           | [] => [[c]]
           end
  end.

(** ** The file handle

    [open(filename, 'r')] opens the file in text mode with universal
    newlines: what is read from the handle has every ["\r\n"] and every lone
    ["\r"] replaced by ["\n"]. The text is kept as its bytes in UTF-8, which
    is how the tokenizer of pandas receives it. *)
Fixpoint universal_newlines (raw : list ascii) : list ascii :=
  match raw with
  | [] => []
  | c :: rest =>
      if bool_decide (c = CR) then
        match rest with
        | d :: rest' => if bool_decide (d = LF) then LF :: universal_newlines rest'
                        else LF :: universal_newlines rest
        | [] => [LF]
        end
      else c :: universal_newlines rest
  end.

(** The handle decodes the bytes of the file in the encoding of the
    platform, which is taken to be UTF-8, and fails on bytes that are no
    UTF-8 ([errors='strict']). The decoder is an automaton over
    the bytes: between two characters it is in [Utf8Start]; after the first
    byte of a character of several bytes it waits for one, two or three
    continuation bytes, the first of which lies in a narrower range after
    the lead bytes E0, ED, F0 and F4 (no overlong forms, no surrogates,
    nothing beyond U+10FFFF). *)
Inductive utf8_state :=
| Utf8Start
| Cont1 | Cont2 | Cont3      (* one, two, three bytes 80..BF to come *)
| AfterE0                    (* A0..BF, then one more *)
| AfterED                    (* 80..9F, then one more *)
| AfterF0                    (* 90..BF, then two more *)
| AfterF4                    (* 80..8F, then two more *)
| Utf8Invalid.

Definition byte_in (lo hi : N) (c : ascii) : bool :=
  ((lo <=? N_of_ascii c) && (N_of_ascii c <=? hi))%N.

Definition utf8_step (s : utf8_state) (c : ascii) : utf8_state :=
  match s with
  | Utf8Start =>
      if byte_in 0 127 c then Utf8Start
      else if byte_in 194 223 c then Cont1
      else if byte_in 224 224 c then AfterE0
      else if byte_in 225 236 c then Cont2
      else if byte_in 237 237 c then AfterED
      else if byte_in 238 239 c then Cont2
      else if byte_in 240 240 c then AfterF0
      else if byte_in 241 243 c then Cont3
      else if byte_in 244 244 c then AfterF4
      else Utf8Invalid
  | Cont1 => if byte_in 128 191 c then Utf8Start else Utf8Invalid
  | Cont2 => if byte_in 128 191 c then Cont1 else Utf8Invalid
  | Cont3 => if byte_in 128 191 c then Cont2 else Utf8Invalid
  | AfterE0 => if byte_in 160 191 c then Cont1 else Utf8Invalid
  | AfterED => if byte_in 128 159 c then Cont1 else Utf8Invalid
  | AfterF0 => if byte_in 144 191 c then Cont2 else Utf8Invalid
  | AfterF4 => if byte_in 128 143 c then Cont2 else Utf8Invalid
  | Utf8Invalid => Utf8Invalid
  end.

(** The decoder from state [s] on: the bytes are text when it ends between
    two characters. *)
Fixpoint utf8_valid_from (s : utf8_state) (bytes : list ascii) : bool :=
  match bytes with
  | [] => match s with Utf8Start => true | _ => false end
  | c :: rest => utf8_valid_from (utf8_step s c) rest
  end.

Definition utf8_valid (bytes : list ascii) : bool := utf8_valid_from Utf8Start bytes.

(** ** The tokenizer of [pandas.read_csv]

    [read_space_delimited] calls [pd.read_csv] with a one-character
    separator, so the C engine does the reading. Its tokenizer is a state
    machine that consumes the text one character at a time. The states below
    are those that a parser with the default quoting (the double quote as
    quote character, doubled quotes, no escape character, no
    [skipinitialspace], no [delim_whitespace]) can enter on a text without
    carriage returns, which is what the text-mode handle delivers. pandas is
    a library that the notebook imports: the machine follows the tokenizer of
    its C engine ([tokenize_bytes], [end_line], [parser_handle_eof]) and keeps
    the names of its states and macros. *)

Inductive ParserState :=
| START_RECORD
| START_FIELD
| IN_FIELD
| IN_QUOTED_FIELD
| QUOTE_IN_QUOTED_FIELD
| EAT_COMMENT
| EAT_LINE_COMMENT
| WHITESPACE_LINE
| START_FIELD_IN_SKIP_LINE
| IN_FIELD_IN_SKIP_LINE
| IN_QUOTED_FIELD_IN_SKIP_LINE
| QUOTE_IN_QUOTED_FIELD_IN_SKIP_LINE.

Global Instance ParserState_eq_dec : EqDecision ParserState.
Proof. solve_decision. Defined.

(** The keyword arguments of [read_csv] that reach the tokenizer. *)
Record dialect := {
  delimiter : ascii;             (* sep *)
  commentchar : option ascii;    (* comment *)
  skipset : list nat;            (* skiprows, a list of line numbers *)
  skip_empty_lines : bool        (* skip_blank_lines *)
}.

(** A token is the text of one field; a row is the list of its tokens. *)
Abbreviation token := (list ascii).
Abbreviation row := (list (list ascii)).

Record parser_t := {
  state : ParserState;
  stream : token;            (* the token being read, last character first *)
  line_fields : row;         (* tokens of the line being read, last first *)
  lines : list row;          (* the rows read so far, last row first *)
  file_lines : nat;          (* number of lines of the file consumed *)
  line_seen : list ascii     (* WHITESPACE_LINE: the line so far, last first *)
}.

Definition parser_init : parser_t :=
  {| state := START_RECORD; stream := []; line_fields := []; lines := [];
     file_lines := 0; line_seen := [] |}.

Definition set_state (s : ParserState) (p : parser_t) : parser_t :=
  {| state := s; stream := stream p; line_fields := line_fields p;
     lines := lines p; file_lines := file_lines p; line_seen := line_seen p |}.

Definition push_char (c : ascii) (p : parser_t) : parser_t :=
  {| state := state p; stream := c :: stream p; line_fields := line_fields p;
     lines := lines p; file_lines := file_lines p; line_seen := line_seen p |}.

Definition end_field (p : parser_t) : parser_t :=
  {| state := state p; stream := []; line_fields := rev (stream p) :: line_fields p;
     lines := lines p; file_lines := file_lines p; line_seen := line_seen p |}.

Definition incr_file_lines (p : parser_t) : parser_t :=
  {| state := state p; stream := stream p; line_fields := line_fields p;
     lines := lines p; file_lines := S (file_lines p); line_seen := [] |}.

Definition see_blank (c : ascii) (p : parser_t) : parser_t :=
  {| state := state p; stream := stream p; line_fields := line_fields p;
     lines := lines p; file_lines := file_lines p; line_seen := c :: line_seen p |}.

Definition in_skip_line (s : ParserState) : bool :=
  match s with
  | START_FIELD_IN_SKIP_LINE | IN_FIELD_IN_SKIP_LINE
  | IN_QUOTED_FIELD_IN_SKIP_LINE | QUOTE_IN_QUOTED_FIELD_IN_SKIP_LINE => true
  | _ => false
  end.

(** [end_line]: a line of the file ends. In a skipped line only the line
    counter moves. Otherwise the line becomes a row: the first row is taken
    as it is; a later row with more fields than the row before it is an
    error (the default [on_bad_lines='error']), and one with fewer fields is
    filled up with empty tokens. *)
Definition end_line (p : parser_t) : result parser_t :=
  let fields := length (line_fields p) in
  if in_skip_line (state p) then
    Ok {| state := state p; stream := stream p; line_fields := [];
          lines := lines p; file_lines := S (file_lines p); line_seen := [] |}
  else
    match lines p with
    | prev :: _ =>
        let ex_fields := length prev in
        if bool_decide (ex_fields < fields) then
          Err (ParserError (TooManyFields ex_fields fields))
        else
          Ok {| state := state p; stream := stream p; line_fields := [];
                lines := (rev (line_fields p) ++ replicate (ex_fields - fields) [])
                         :: lines p;
                file_lines := S (file_lines p); line_seen := [] |}
    | [] =>
        Ok {| state := state p; stream := stream p; line_fields := [];
              lines := [rev (line_fields p)];
              file_lines := S (file_lines p); line_seen := [] |}
    end.

(** The [END_LINE()] macro: [end_line], then a new record starts. *)
Definition END_LINE (p : parser_t) : result parser_t :=
  set_state START_RECORD <$> end_line p.

Section Tokenizer.
Variable d : dialect.

Definition IS_TERMINATOR (c : ascii) : bool := bool_decide (c = LF).
Definition IS_QUOTE (c : ascii) : bool := bool_decide (c = QUOTE).
Definition IS_DELIMITER (c : ascii) : bool := bool_decide (c = delimiter d).
Definition IS_COMMENT_CHAR (c : ascii) : bool :=
  match commentchar d with
  | Some k => bool_decide (c = k)
  | None => false
  end.
Definition skip_this (rownum : nat) : bool := bool_decide (rownum ∈ skipset d).

(** The cases of the tokenizer's switch for a character inside a record
    that is kept. *)
Definition tokenize_in_record (p : parser_t) (c : ascii) : result parser_t :=
  match state p with
  | START_FIELD =>
      if IS_TERMINATOR c then END_LINE (end_field p)
      else if IS_QUOTE c then Ok (set_state IN_QUOTED_FIELD p)
      else if IS_DELIMITER c then Ok (end_field p)
      else if IS_COMMENT_CHAR c then Ok (set_state EAT_COMMENT (end_field p))
      else Ok (set_state IN_FIELD (push_char c p))
  | IN_FIELD =>
      if IS_TERMINATOR c then END_LINE (end_field p)
      else if IS_DELIMITER c then Ok (set_state START_FIELD (end_field p))
      else if IS_COMMENT_CHAR c then Ok (set_state EAT_COMMENT (end_field p))
      else Ok (push_char c p)
  | IN_QUOTED_FIELD =>
      if IS_QUOTE c then Ok (set_state QUOTE_IN_QUOTED_FIELD p)
      else Ok (push_char c p)
  | QUOTE_IN_QUOTED_FIELD =>
      if IS_QUOTE c then Ok (set_state IN_QUOTED_FIELD (push_char c p))
      else if IS_DELIMITER c then Ok (set_state START_FIELD (end_field p))
      else if IS_TERMINATOR c then END_LINE (end_field p)
      else Ok (set_state IN_FIELD (push_char c p))
  | EAT_COMMENT =>
      if IS_TERMINATOR c then END_LINE p else Ok p
  | _ => Ok p
  end.

(** One turn of the loop of [tokenize_bytes]: the parser consumes [c]. A
    record starts with the test whether its line number is to be skipped;
    an empty line is dropped when [skip_empty_lines] is set, and so is a line
    of blank characters other than the delimiter ([WHITESPACE_LINE]). When
    such a line turns out to hold something else, the tokenizer steps back to
    the first character of the line and reads the line again as fields. *)
Definition tokenize_byte (p : parser_t) (c : ascii) : result parser_t :=
  match state p with
  | START_RECORD =>
      if skip_this (file_lines p) then
        if IS_QUOTE c then Ok (set_state IN_QUOTED_FIELD_IN_SKIP_LINE p)
        else if IS_TERMINATOR c then END_LINE (set_state IN_FIELD_IN_SKIP_LINE p)
        else Ok (set_state IN_FIELD_IN_SKIP_LINE p)
      else if IS_TERMINATOR c then
        if skip_empty_lines d then Ok (incr_file_lines p) else END_LINE p
      else if IS_COMMENT_CHAR c then Ok (set_state EAT_LINE_COMMENT p)
      else if isblank c && negb (IS_DELIMITER c) && skip_empty_lines d then
        Ok (set_state WHITESPACE_LINE (see_blank c p))
      else tokenize_in_record (set_state START_FIELD p) c
  | WHITESPACE_LINE =>
      if IS_TERMINATOR c then Ok (set_state START_RECORD (incr_file_lines p))
      else if isblank c && negb (IS_DELIMITER c) then Ok (see_blank c p)
      else foldM tokenize_in_record (set_state START_FIELD p)
                 (rev (c :: line_seen p))
  | EAT_LINE_COMMENT =>
      if IS_TERMINATOR c then Ok (set_state START_RECORD (incr_file_lines p))
      else Ok p
  | START_FIELD_IN_SKIP_LINE =>
      if IS_TERMINATOR c then END_LINE p
      else if IS_QUOTE c then Ok (set_state IN_QUOTED_FIELD_IN_SKIP_LINE p)
      else if IS_DELIMITER c then Ok p
      else Ok (set_state IN_FIELD_IN_SKIP_LINE p)
  | IN_FIELD_IN_SKIP_LINE =>
      if IS_TERMINATOR c then END_LINE p
      else if IS_DELIMITER c then Ok (set_state START_FIELD_IN_SKIP_LINE p)
      else Ok p
  | IN_QUOTED_FIELD_IN_SKIP_LINE =>
      if IS_QUOTE c then Ok (set_state QUOTE_IN_QUOTED_FIELD_IN_SKIP_LINE p)
      else Ok p
  | QUOTE_IN_QUOTED_FIELD_IN_SKIP_LINE =>
      if IS_TERMINATOR c then END_LINE p
      else if IS_QUOTE c then Ok (set_state IN_QUOTED_FIELD_IN_SKIP_LINE p)
      else if IS_DELIMITER c then Ok (set_state START_FIELD_IN_SKIP_LINE p)
      else Ok (set_state IN_FIELD_IN_SKIP_LINE p)
  | _ => tokenize_in_record p c
  end.

(** [parser_handle_eof]: the text ends. A field or a line that is open is
    closed; the end of the text inside a quoted field is an error. *)
Definition parser_handle_eof (p : parser_t) : result parser_t :=
  match state p with
  | START_RECORD | WHITESPACE_LINE | EAT_LINE_COMMENT => Ok p
  | IN_QUOTED_FIELD => Err (ParserError EOFInsideString)
  | IN_FIELD | START_FIELD | QUOTE_IN_QUOTED_FIELD => end_line (end_field p)
  | _ => end_line p
  end.

(** The [CHECK_FOR_BOM()] macro: a byte order mark at the start of the
    buffer is stepped over. *)
Definition CHECK_FOR_BOM (buf : list ascii) : list ascii :=
  match buf with
  | a :: b :: c :: rest => if bool_decide ([a; b; c] = BOM) then rest else buf
  | _ => buf
  end.

(** [tokenize_bytes]: the loop over the characters of a buffer; before the
    first line of the file the byte order mark is looked for. *)
Definition tokenize_bytes (p : parser_t) (buf : list ascii) : result parser_t :=
  foldM tokenize_byte p
        (if bool_decide (file_lines p = 0) then CHECK_FOR_BOM buf else buf).

(** All rows of the text, first row first. The text of the handle is taken
    to reach the tokenizer as one buffer, as a file of fewer characters than
    the reader's chunk of 262144 does. *)
Definition tokenize_all (text : list ascii) : result (list row) :=
  p ← tokenize_bytes parser_init text;
  p ← parser_handle_eof p;
  Ok (rev (lines p)).

End Tokenizer.

(** ** Values, arrays and frames *)

(** An entry of an array: a string, the missing value [NaN] (a field that
    [read_csv] found empty or holding a missing-value marker), or the float
    zero that [np.zeros] fills its result with. *)
Inductive value :=
| Str (s : string)
| NaN
| Zero.

Global Instance value_eq_dec : EqDecision value.
Proof. solve_decision. Defined.

(** A two-dimensional numpy array of shape [(length rows, shape1)]. *)
Record ndarray := {
  shape1 : nat;
  rows : list (list value)
}.

Definition shape0 (a : ndarray) : nat := length (rows a).

(** A frame without header or index: [df.values] and [df.columns], the
    latter being the range of the column numbers. *)
Record DataFrame := {
  values : ndarray
}.

Definition columns (df : DataFrame) : list nat := seq 0 (shape1 (values df)).

(** [np.zeros(n)]. *)
Definition np_zeros (n : nat) : list value := replicate n Zero.

(** [np.vstack((a, b))]: the rows of [a], then those of [b]; the two arrays
    must have the same number of columns. *)
Definition np_vstack (a b : ndarray) : result ndarray :=
  if decide (shape1 a = shape1 b) then
    Ok {| shape1 := shape1 a; rows := rows a ++ rows b |}
  else Err ValueError.

(** [np.append(u, v)] of two vectors. *)
Definition np_append (u v : list value) : list value := u ++ v.

(** ** [pandas.read_csv] *)

(** The strings that [read_csv] reads as a missing value when [na_values]
    and [keep_default_na] are left alone, as they are here; [dtype=str] does
    not switch this off. The table is that of pandas; the markers that only
    some releases know are included. *)
Definition STR_NA_VALUES : list string :=
  [ "-1.#IND"; "1.#QNAN"; "1.#IND"; "-1.#QNAN"; "#N/A N/A"; "#N/A"; "N/A";
    "n/a"; "NA"; "<NA>"; "#NA"; "NULL"; "null"; "NaN"; "-NaN"; "nan";
    "-nan"; "None"; "" ].

Definition is_na (s : string) : bool := bool_decide (s ∈ STR_NA_VALUES).

(** A token as an entry of a frame of [dtype=str]. *)
Definition convert_token (t : token) : value :=
  let s := string_of_list_ascii t in
  if is_na s then NaN else Str s.

(** [pd.read_csv(fd, skiprows=.., skip_blank_lines=.., comment=.., sep=..,
    header=None, dtype=str)]. Without a header the first row read gives the
    number of columns; a text without any row is an error. *)
Definition read_csv (fd : list ascii) (skiprows : list nat)
    (skip_blank_lines : bool) (comment : option ascii) (sep : ascii)
    : result DataFrame :=
  toks ← tokenize_all {| delimiter := sep; commentchar := comment;
                         skipset := skiprows;
                         skip_empty_lines := skip_blank_lines |} fd;
  match toks with
  | [] => Err EmptyDataError
  | first :: _ =>
      Ok {| values := {| shape1 := length first;
                         rows := map (map convert_token) toks |} |}
  end.

(** [df.loc[:, j].values]: column [j] as a vector. *)
Definition loc_column (df : DataFrame) (j : nat) : list value :=
  map (λ r, nth j r NaN) (rows (values df)).

(** [df.loc[:, js].values] for a leading range [js] of the columns. *)
Definition loc_columns (df : DataFrame) (js : list nat) : ndarray :=
  {| shape1 := length js; rows := map (take (length js)) (rows (values df)) |}.

(** ** Python objects *)

#[local] Unset Elimination Schemes.
Inductive pyobj :=
| PyNone
| PyStr (s : string)
| PyDict (m : gmap string pyobj)
| PyArray2 (a : ndarray)
| PyArray1 (v : list value).
#[local] Set Elimination Schemes.

(** ** The file system *)

(** What the system holds at a path: a file that can be read, with its
    bytes, or something that [open] refuses to open for reading. *)
Inductive node :=
| RegularFile (contents : string)
| Refused (why : oserror).

(** The file system: what [open] finds at each path that it is given. *)
Abbreviation filesystem := (gmap string node).

(** [open(filename, 'r')] and reading the handle to its end, which for a
    file that fits the reader's chunk is done before any of it is
    tokenized: a path with a null character is refused, then the file is
    looked for, opened and decoded. *)
Definition open_read (fs : filesystem) (filename : string) : result (list ascii) :=
  if bool_decide (NUL ∈ list_ascii_of_string filename) then Err ValueError
  else
    match fs !! filename with
    | None => Err (FileNotFoundError filename)
    | Some (Refused why) => Err (OSError why filename)
    | Some (RegularFile raw) =>
        let bytes := list_ascii_of_string raw in
        if utf8_valid bytes then Ok (universal_newlines bytes)
        else Err UnicodeDecodeError
    end.

(** ** Paths

    A path of [pathlib] on a POSIX system: a root (none, one slash, or two)
    and the names below it. When a string is read as a path, empty names
    and the name [.] are dropped; [..] is kept as it is. *)
Record PurePath := {
  root : string;
  parts : list string
}.

(** The root of a string read as a path: [//] when the string starts with
    just two slashes, [/] when it starts with one or with more than two. *)
Definition path_root (s : string) : string :=
  match list_ascii_of_string s with
  | a :: b :: c :: _ =>
      if bool_decide (a = SLASH) then
        if bool_decide (b = SLASH) then
          if bool_decide (c = SLASH) then "/" else "//"
        else "/"
      else ""
  | [a; b] =>
      if bool_decide (a = SLASH) then
        if bool_decide (b = SLASH) then "//" else "/"
      else ""
  | [a] => if bool_decide (a = SLASH) then "/" else ""
  | [] => ""
  end.

Definition path_names (s : string) : list string :=
  filter (λ x, x ≠ "" ∧ x ≠ ".")
         (map string_of_list_ascii (split_on SLASH (list_ascii_of_string s))).

(** [Path(s)]. *)
Definition Path (s : string) : PurePath :=
  {| root := path_root s; parts := path_names s |}.

(** [p / q] for a path [p] and a string [q]: an absolute [q] takes the
    place of [p]; the names of a relative [q] come below those of [p]. *)
Definition joinpath (p : PurePath) (q : string) : PurePath :=
  if bool_decide (path_root q = "") then
    {| root := root p; parts := parts p ++ path_names q |}
  else Path q.
Infix "</>" := joinpath (at level 40, left associativity).

(** [os.fspath(p)], the string that [open] is given for a path. *)
Definition fspath (p : PurePath) : string :=
  if bool_decide (root p = "" ∧ parts p = []) then "."
  else root p +:+ String.concat "/" (parts p).

(** ** [read_space_delimited] *)

(** [skiprows=None] is the empty list; [class_labels is True] is the test of
    a Boolean; [metadata] is handed back as it came. *)
Definition read_space_delimited (fs : filesystem) (filename : string)
    (skiprows : list nat) (class_labels : bool) (metadata : pyobj)
    : result (ndarray * list value * pyobj) :=
  fd ← open_read fs filename;
  df ← read_csv fd skiprows true None SPACE;
  (* targets are last column. Data is everything else *)
  if class_labels then
    match reverse (columns df) with
    | [] => Err IndexError
    | last_column :: _ =>
        let target := loc_column df last_column in
        let data := loc_columns df (removelast (columns df)) in
        Ok (data, target, metadata)
    end
  else
    let data := values df in
    let target := np_zeros (shape0 data) in
    Ok (data, target, metadata).

(** ** Calls of extraction functions

    The processing functions hand their [metadata] on to an extraction
    function. To say what that function is given, a computation carries the
    list of the calls made so far; a raised exception leaves it in place. *)

Record call := {
  callee : string;
  metadata_arg : pyobj
}.

Definition M (A : Type) : Type := list call → result A * list call.

Global Instance M_ret : MRet M := λ A a log, (Ok a, log).
Global Instance M_bind : MBind M := λ A B k m log,
  match m log with
  | (Ok a, log') => k a log'
  | (Err e, log') => (Err e, log')
  end.

Definition raise {A} (e : exn) : M A := λ log, (Err e, log).

Definition lift {A} (r : result A) : M A := λ log, (r, log).

(** The call [f(metadata=metadata, ...)], noted in the list of calls. *)
Definition invoke {A} (f : string) (metadata : pyobj) (body : M A) : M A :=
  λ log, body (log ++ [{| callee := f; metadata_arg := metadata |}]).

(** What a computation returns, and the calls it makes, from an empty list. *)
Definition returns {A} (m : M A) : result A := (m []).1.
Definition calls {A} (m : M A) : list call := (m []).2.

(** Reading a local variable: an unbound one raises [UnboundLocalError]. *)
Definition load_local {A} (name : string) (binding : option A) : M A :=
  match binding with
  | Some v => mret v
  | None => raise (UnboundLocalError name)
  end.

(** The dictionary [dset_opts] that both processing functions return. *)
Definition dset_opts (dataset_name metadata data target : pyobj)
    : gmap string pyobj :=
  {[ "dataset_name" := dataset_name;
     "metadata" := metadata;
     "data" := data;
     "target" := target ]}.

(** [if metadata is None: metadata = {}]. *)
Definition metadata_or_empty (metadata : pyobj) : pyobj :=
  match metadata with
  | PyNone => PyDict ∅
  | _ => metadata
  end.

(** ** [process_raw_data] *)

(** A function that can be passed as [extract_func]: it takes [metadata] and
    the other keyword arguments and returns [(data, target, metadata)]. *)
Definition extractor : Type :=
  pyobj → gmap string pyobj → M (pyobj * pyobj * pyobj).

(** Calling the value of [extract_func], which is [None] or a function. *)
Definition call_extract_func (extract_func : option extractor)
    (metadata : pyobj) (kwargs : gmap string pyobj) : M (pyobj * pyobj * pyobj) :=
  match extract_func with
  | Some f => invoke "extract_func" metadata (f metadata kwargs)
  | None => raise TypeError
  end.

(** The last statements of the template: the call of [extract_func] and
    the dictionary made of what it returns. *)
Definition generate_dset_opts (dataset_name metadata : pyobj)
    (extract_func : option extractor) (kwargs : gmap string pyobj)
    : M (gmap string pyobj) :=
  (* Generate `data` and `target` info *)
  '(data, target, metadata) ← call_extract_func extract_func metadata kwargs;
  mret (dset_opts dataset_name metadata data target).

(** The template. The nested [def extract_function] makes
    [extract_function] a local variable of [process_raw_data]; nothing binds
    it before the test [extract_function is None] reads it. The parameter is
    [extract_func]. *)
Definition process_raw_data (dataset_name metadata : pyobj)
    (extract_func : option extractor) (kwargs : gmap string pyobj)
    : M (gmap string pyobj) :=
  let metadata := metadata_or_empty metadata in
  let data := PyNone in
  let target := PyNone in
  let extract_function : option (option extractor) := None in
  f ← load_local "extract_function" extract_function;
  let extract_function : option (option extractor) :=
    match f with
    | None => Some (Some (λ _ _, mret (data, target, metadata)))
    | Some _ => extract_function
    end in
  generate_dset_opts dataset_name metadata extract_func kwargs.

(** ** [process_lvq_pak] *)

Section LvqPak.
(** [src.paths.interim_data_path], the directory of the unpacked sources: a
    path, given by its string. *)
Variable interim_data_path : string.

Definition process_lvq_pak (fs : filesystem) (dataset_name : string)
    (metadata : pyobj) (kind : string) : M (gmap string pyobj) :=
  let metadata := metadata_or_empty metadata in
  let untar_dir := Path interim_data_path </> dataset_name in
  let unpack_dir := untar_dir </> "lvq_pak-3.1" in
  '(data, target, metadata) ←
    (if decide (kind = "train") then
       invoke "read_space_delimited" metadata
         (lift (read_space_delimited fs (fspath (unpack_dir </> "ex1.dat")) [0; 1] true
                                      metadata))
     else if decide (kind = "test") then
       invoke "read_space_delimited" metadata
         (lift (read_space_delimited fs (fspath (unpack_dir </> "ex2.dat")) [0] true
                                      metadata))
     else if decide (kind = "all") then
       '(data1, target1, metadata) ←
         invoke "read_space_delimited" metadata
           (lift (read_space_delimited fs (fspath (unpack_dir </> "ex1.dat")) [0; 1] true
                                      metadata));
       '(data2, target2, metadata) ←
         invoke "read_space_delimited" metadata
           (lift (read_space_delimited fs (fspath (unpack_dir </> "ex2.dat")) [0] true
                                      metadata));
       data ← lift (np_vstack data1 data2);
       mret (data, np_append target1 target2, metadata)
     else raise (Exception ("Unknown kind: " +:+ kind)));
  mret (dset_opts (PyStr dataset_name) metadata (PyArray2 data) (PyArray1 target)).

End LvqPak.

(** * The parser, line by line

    What the tokenizer computes on a text without quote characters, when it
    is run the way [read_space_delimited] runs it: the text falls into lines
    at the line feeds, lines are dropped by number or for being blank, and
    every line that is kept is cut at each single space. *)

(** The lines of a text: its pieces between line feeds. The empty piece
    after a last line feed is not a line; a last line that no line feed
    closes is one. *)
Definition text_lines (text : list ascii) : list (list ascii) :=
  let pieces := split_on LF text in
  match last pieces with
  | Some [] => removelast pieces
  | _ => pieces
  end.

(** The number of lines of a text. *)
Definition line_count (text : list ascii) : nat := length (text_lines text).

(** The fields of a line as the tokenizer cuts it: at every single space. *)
Definition fields (line : list ascii) : row := split_on SPACE line.

(** A line that [skip_blank_lines] drops when the separator is a space: an
    empty line or a line of tabs. A line that holds a space is not of this
    kind, for the space is the delimiter. *)
Definition blank_line (line : list ascii) : bool :=
  forallb (λ c, bool_decide (c = TAB)) line.

(** The lines that become rows: those whose number, counted from [n] on, is
    not in [skiprows] and that are not blank. *)
Fixpoint kept_from (skiprows : list nat) (n : nat) (ls : list (list ascii))
    : list (list ascii) :=
  match ls with
  | [] => []
  | l :: ls' =>
      if bool_decide (n ∈ skiprows) || blank_line l
      then kept_from skiprows (S n) ls'
      else l :: kept_from skiprows (S n) ls'
  end.

(** The data lines of a text: the lines that become rows. A byte order
    mark at the start of the text is no part of its first line. *)
Definition data_lines (skiprows : list nat) (text : list ascii) : list (list ascii) :=
  kept_from skiprows 0 (text_lines (CHECK_FOR_BOM text)).

(** A row filled up to [width] tokens with empty tokens. *)
Definition pad_row (width : nat) (r : row) : row :=
  r ++ replicate (width - length r) [].

(** Rows of [width] tokens out of the rows as cut: too long a row is the
    tokenizer's error, a shorter one is filled up. *)
Fixpoint fill_rows (width : nat) (rs : list row) : result (list row) :=
  match rs with
  | [] => Ok []
  | r :: rs' =>
      if bool_decide (width < length r) then
        Err (ParserError (TooManyFields width (length r)))
      else
        rest ← fill_rows width rs';
        Ok (pad_row width r :: rest)
  end.

(** The first row sets the width. *)
Definition assemble_rows (rs : list row) : result (list row) :=
  match rs with
  | [] => Ok []
  | r :: rs' => rest ← fill_rows (length r) rs'; Ok (r :: rest)
  end.

(** A row as a row of the frame: filled up, every token converted. *)
Definition frame_row (width : nat) (r : row) : list value :=
  map convert_token (pad_row width r).

(** The arrays made of the rows of a frame of [w] columns. *)
Definition frame_arrays (w : nat) (class_labels : bool) (rs : list row)
    : ndarray * list value :=
  let cells := map (frame_row w) rs in
  if class_labels then
    ({| shape1 := w - 1; rows := map (take (w - 1)) cells |},
     map (λ r, nth (w - 1) r NaN) cells)
  else
    ({| shape1 := w; rows := cells |}, np_zeros (length cells)).

(** What [read_space_delimited] returns, said by lines: the first data line
    sets the number of columns, a data line with more fields is the
    tokenizer's error, and the arrays hold the fields of the data lines. *)
Definition read_space_delimited_lines (text : list ascii) (skiprows : list nat)
    (class_labels : bool) (metadata : pyobj)
    : result (ndarray * list value * pyobj) :=
  match map fields (data_lines skiprows text) with
  | [] => Err EmptyDataError
  | first :: others =>
      let w := length first in
      match List.find (λ r, bool_decide (w < length r)) others with
      | Some r => Err (ParserError (TooManyFields w (length r)))
      | None => Ok (frame_arrays w class_labels (first :: others), metadata)
      end
  end.

(** The text holds no quote character. *)
Definition quote_free (text : list ascii) : Prop := QUOTE ∉ text.

(** The dialect that [read_space_delimited] passes to [read_csv]. *)
Definition space_dialect (skiprows : list nat) : dialect :=
  {| delimiter := SPACE; commentchar := None; skipset := skiprows;
     skip_empty_lines := true |}.

(** ** The parser between and inside lines *)

(** The parser between two lines, [n] lines consumed, rows [acc] read. *)
Definition between_lines (n : nat) (acc : list row) : parser_t :=
  {| state := START_RECORD; stream := []; line_fields := []; lines := acc;
     file_lines := n; line_seen := [] |}.

(** The parser in state [s] with no token and no field open. *)
Definition at_state (s : ParserState) (n : nat) (acc : list row)
    (seen : list ascii) : parser_t :=
  {| state := s; stream := []; line_fields := []; lines := acc;
     file_lines := n; line_seen := seen |}.

(** The parser is inside a kept line of which it has consumed [l]: closing
    the open token now would give the fields of [l]. *)
Definition reading (p : parser_t) (l : list ascii) : Prop :=
  (state p = START_FIELD ∨ state p = IN_FIELD) ∧
  rev (line_fields p) ++ [rev (stream p)] = fields l.

(** In a skipped line without quote characters the parser moves between
    the two states of a skipped field and reads nothing. *)
Definition skipping (s : ParserState) : Prop :=
  s = IN_FIELD_IN_SKIP_LINE ∨ s = START_FIELD_IN_SKIP_LINE.

(** A row joins the rows read so far (last row first), as [end_line] has it. *)
Definition push_row (r : row) (acc : list row) : result (list row) :=
  match acc with
  | prev :: _ =>
      if bool_decide (length prev < length r) then
        Err (ParserError (TooManyFields (length prev) (length r)))
      else Ok ((r ++ replicate (length prev - length r) []) :: acc)
  | [] => Ok [r]
  end.

(** What line number [n] of the file does to the rows read so far. *)
Definition add_line (skiprows : list nat) (n : nat) (l : list ascii)
    (acc : list row) : result (list row) :=
  if bool_decide (n ∈ skiprows) || blank_line l then Ok acc
  else push_row (fields l) acc.

(** What the lines [ls], numbered from [n] on, do to the rows read so far. *)
Fixpoint add_lines (skiprows : list nat) (n : nat) (ls : list (list ascii))
    (acc : list row) : result (list row) :=
  match ls with
  | [] => Ok acc
  | l :: ls' =>
      acc' ← add_line skiprows n l acc;
      add_lines skiprows (S n) ls' acc'
  end.

(** The errors of the tokenizer. *)
Definition parser_error (e : exn) : Prop :=
  match e with
  | ParserError _ => True
  | _ => False
  end.

(** ** One character for another *)

(** [rename a b] writes [b] for every [a]. *)
Definition rename (a b c : ascii) : ascii := if bool_decide (c = a) then b else c.

Definition rename_parser (a b : ascii) (p : parser_t) : parser_t :=
  {| state := state p;
     stream := map (rename a b) (stream p);
     line_fields := map (map (rename a b)) (line_fields p);
     lines := map (map (map (rename a b))) (lines p);
     file_lines := file_lines p;
     line_seen := map (rename a b) (line_seen p) |}.

(** A character that means nothing to the tokenizer: no line feed, no quote,
    not blank, not the delimiter, not the comment character, and no byte of
    the byte order mark. *)
Definition ordinary (d : dialect) (c : ascii) : Prop :=
  IS_TERMINATOR c = false ∧ IS_QUOTE c = false ∧ IS_DELIMITER d c = false ∧
  IS_COMMENT_CHAR d c = false ∧ isblank c = false ∧ (c ∉ BOM).

(** ** Well-formed files *)

(** A field that [read_csv] keeps as a string: it is no missing-value marker. *)
Definition plain_field (t : token) : Prop := is_na (string_of_list_ascii t) = false.

Global Instance plain_field_dec t : Decision (plain_field t).
Proof. unfold plain_field. apply _. Defined.

(** A file is well formed at width [w], as the specification has it, when
    it has a data line and every data line has [w] fields. *)
Definition well_formed (skiprows : list nat) (text : list ascii) (w : nat) : Prop :=
  data_lines skiprows text ≠ [] ∧
  Forall (λ line, length (fields line) = w) (data_lines skiprows text).

(** The string of a token as an entry of the frame. *)
Definition str (t : token) : value := Str (string_of_list_ascii t).

(** The number of blank lines of a text. *)
Definition blank_count (text : list ascii) : nat :=
  length (filter (λ l, blank_line l = true) (text_lines text)).

(** ** Dictionaries, kinds and calls *)

(** The two files of the source. *)
Definition lvq_file (interim_data_path dataset_name file : string) : string :=
  fspath (Path interim_data_path </> dataset_name </> "lvq_pak-3.1" </> file).

(** The kinds that [process_lvq_pak] knows. *)
Definition supported_kinds : list string := ["train"; "test"; "all"].

(** The entry of the list of calls for a call of [read_space_delimited]. *)
Definition read_call (metadata : pyobj) : call :=
  {| callee := "read_space_delimited"; metadata_arg := metadata |}.

(** The dictionary made of what an extraction returns. *)
Definition dataset_of (dataset_name : string) (r : ndarray * list value * pyobj)
    : gmap string pyobj :=
  dset_opts (PyStr dataset_name) r.2 (PyArray2 r.1.1) (PyArray1 r.1.2).

(** The arrays in a dictionary. *)
Definition dataset_data (r : gmap string pyobj) : option ndarray :=
  match r !! "data" with
  | Some (PyArray2 a) => Some a
  | _ => None
  end.

Definition dataset_target (r : gmap string pyobj) : option (list value) :=
  match r !! "target" with
  | Some (PyArray1 v) => Some v
  | _ => None
  end.

(** An extraction function that reads one space-delimited file, the way
    [process_lvq_pak] reads each of its files. *)
Definition read_extractor (fs : filesystem) (filename : string)
    (skiprows : list nat) (class_labels : bool) : extractor :=
  λ metadata _,
    '(data, target, metadata) ←
      invoke "read_space_delimited" metadata
        (lift (read_space_delimited fs filename skiprows class_labels metadata));
    mret (PyArray2 data, PyArray1 target, metadata).

(** * Sample files *)

Definition nl : string := String LF "".

(** A training file in the layout of [ex1.dat]: the number of columns, a
    comment line, then the rows; one label is the hash character. *)
Definition ex1_dat : string :=
  "2" +:+ nl +:+ "# two numbers and a label" +:+ nl +:+
  "1.5 2.5 A" +:+ nl +:+ nl +:+ "3.5 4.5 #" +:+ nl.

(** A test file in the layout of [ex2.dat]: no comment line. *)
Definition ex2_dat : string :=
  "2" +:+ nl +:+ "5.5 6.5 B" +:+ nl +:+ "7.5 8.5 A" +:+ nl.

Definition sample_fs : filesystem :=
  {[ "/interim/lvq-pak/lvq_pak-3.1/ex1.dat" := RegularFile ex1_dat;
     "/interim/lvq-pak/lvq_pak-3.1/ex2.dat" := RegularFile ex2_dat ]}.

Definition ex1_text : list ascii := list_ascii_of_string ex1_dat.

(** A file of one line with two spaces between two words. *)
Definition double_space_fs : filesystem :=
  {[ "words.dat" := RegularFile ("a  b" +:+ nl) ]}.
Definition double_space_line : list ascii := list_ascii_of_string "a  b".
Definition double_space_text : list ascii := list_ascii_of_string ("a  b" +:+ nl).

(** A file that starts with a byte order mark, a file that is no UTF-8, and
    a directory. *)
Definition marked_fs : filesystem :=
  {[ "marked.dat" :=
       RegularFile (string_of_list_ascii (BOM ++ list_ascii_of_string ("a b" +:+ nl)));
     "latin.dat" := RegularFile (String "255" ("a b" +:+ nl));
     "interim" := Refused IsADirectoryError ]}.

(** A file whose first label is a marker of a missing value. *)
Definition na_label_dat : string := "1.5 2.5 NA" +:+ nl +:+ "3.5 4.5 B" +:+ nl.
Definition na_label_fs : filesystem := {[ "labels.dat" := RegularFile na_label_dat ]}.
Definition na_label_text : list ascii := list_ascii_of_string na_label_dat.

(** A file in the layout of [ex1.dat] with a line that holds one space. *)
Definition space_line_dat : string :=
  "2" +:+ nl +:+ "# two numbers and a label" +:+ nl +:+
  "1.5 2.5 A" +:+ nl +:+ " " +:+ nl +:+ "3.5 4.5 B" +:+ nl.
Definition space_line_fs : filesystem := {[ "spaces.dat" := RegularFile space_line_dat ]}.
Definition space_line_text : list ascii := list_ascii_of_string space_line_dat.

(** A file of a header line, a comment line and a blank line: no data. *)
Definition header_only_dat : string := "2" +:+ nl +:+ "# no rows" +:+ nl +:+ nl.
Definition header_only_fs : filesystem := {[ "empty.dat" := RegularFile header_only_dat ]}.
Definition header_only_text : list ascii := list_ascii_of_string header_only_dat.

(** A file whose second row has a field less than its first. *)
Definition short_row_dat : string := "a b c" +:+ nl +:+ "d e" +:+ nl.
Definition short_row_fs : filesystem := {[ "rows.dat" := RegularFile short_row_dat ]}.
Definition short_row_text : list ascii := list_ascii_of_string short_row_dat.

(** A file whose second row has a field more than its first. *)
Definition long_row_dat : string := "a b" +:+ nl +:+ "c d e" +:+ nl.
Definition long_row_fs : filesystem := {[ "rows.dat" := RegularFile long_row_dat ]}.
Definition long_row_text : list ascii := list_ascii_of_string long_row_dat.

(** Two files that parse, with rows of three fields in the one and of two
    fields in the other. *)
Definition uneven_fs : filesystem :=
  {[ "/interim/lvq-pak/lvq_pak-3.1/ex1.dat" := RegularFile ex1_dat;
     "/interim/lvq-pak/lvq_pak-3.1/ex2.dat" :=
       RegularFile ("1" +:+ nl +:+ "5.5 B" +:+ nl) ]}.

(** * The claims that fail, as the specification states them *)

(** The whitespace characters: space, tab, line feed, vertical tab, form
    feed, carriage return. *)
Definition is_whitespace (c : ascii) : bool :=
  bool_decide (c ∈ [SPACE; TAB; LF; "011"%char; "012"%char; CR]).

(** The number of maximal runs of characters other than whitespace in a
    line; [inside] tells whether the character before was in such a run. *)
Fixpoint count_runs (inside : bool) (line : list ascii) : nat :=
  match line with
  | [] => 0
  | c :: rest =>
      if is_whitespace c then count_runs false rest
      else (if inside then 0 else 1) + count_runs true rest
  end.

Definition nonwhitespace_runs (line : list ascii) : nat := count_runs false line.

(** The claim C2 for one file: when the file is well formed, the call
    returns, [target[i]] is the last field of data line [i] and row [i] of
    [data] holds the fields before it, as they are written. *)
Definition labels_are_last_fields_as_stated (fs : filesystem) (filename : string)
    (skiprows : list nat) : Prop :=
  ∀ text w,
    open_read fs filename = Ok text → well_formed skiprows text w →
    ∃ data target metadata,
      read_space_delimited fs filename skiprows true PyNone =
        Ok (data, target, metadata) ∧
      ∀ i line pre label,
        data_lines skiprows text !! i = Some line → fields line = pre ++ [label] →
        target !! i = Some (str label) ∧ rows data !! i = Some (map str pre).

(** The claim C3 for a file of one data line: the parser finds one field
    for each run, so the frame has as many columns as the line has runs. *)
Definition fields_are_whitespace_runs (fs : filesystem) (filename : string) : Prop :=
  ∀ text line data target metadata,
    open_read fs filename = Ok text → data_lines [] text = [line] →
    read_space_delimited fs filename [] false PyNone = Ok (data, target, metadata) →
    shape1 data = nonwhitespace_runs line.

(** A blank line as the word is used: a line of whitespace, if of anything. *)
Definition whitespace_line (line : list ascii) : bool := forallb is_whitespace line.

Definition whitespace_line_count (text : list ascii) : nat :=
  length (filter (λ l, whitespace_line l = true) (text_lines text)).

(** The claim C6 for one file that starts with a header line and a comment
    line: read with [skiprows=[0,1]], it gives as many rows as it has lines,
    less two, less the blank lines. *)
Definition row_count_as_stated (fs : filesystem) (filename : string) : Prop :=
  ∀ text,
    open_read fs filename = Ok text →
    ∃ data target metadata,
      read_space_delimited fs filename [0; 1] true PyNone =
        Ok (data, target, metadata) ∧
      shape0 data = line_count text - 2 - whitespace_line_count text.

(** The claim C4 for one file: a data line whose number of fields differs
    from that of the first data line makes the parser fail. *)
Definition uneven_rows_rejected (fs : filesystem) (filename : string)
    (skiprows : list nat) : Prop :=
  ∀ text first others,
    open_read fs filename = Ok text →
    data_lines skiprows text = first :: others →
    Exists (λ l, length (fields l) ≠ length (fields first)) others →
    ∃ e, read_space_delimited fs filename skiprows true PyNone = Err e.

(** The claim C8 for one file system: when ['train'] and ['test'] return,
    ['all'] returns as well. *)
Definition all_returns_when_parts_do (interim_data_path : string) (fs : filesystem)
    (dataset_name : string) : Prop :=
  ∀ r1 r2,
    returns (process_lvq_pak interim_data_path fs dataset_name PyNone "train") = Ok r1 →
    returns (process_lvq_pak interim_data_path fs dataset_name PyNone "test") = Ok r2 →
    ∃ r, returns (process_lvq_pak interim_data_path fs dataset_name PyNone "all") = Ok r.

(** * Further definitions *)

(** ** Rows of one length *)

(** The rows all have [w] tokens. *)
Definition rectangular {A} (w : nat) (rs : list (list A)) : Prop :=
  Forall (λ r, length r = w) rs.

(** What holds of the parser that [read_space_delimited] runs, after every
    character: it is in no comment state, and the rows it has read have one
    length, which is not zero. *)
Definition parser_inv (p : parser_t) : Prop :=
  state p ≠ EAT_COMMENT ∧ state p ≠ EAT_LINE_COMMENT ∧
  ∃ w, 0 < w ∧ rectangular w (lines p).

(** The last column set beside the others: [np.column_stack((data, target))]. *)
Definition with_last_column (data : list (list value)) (target : list value)
    : list (list value) :=
  zip_with (λ r t, r ++ [t]) data target.

(** ** Line endings *)

(** A text with the line endings of Windows: a carriage return before every
    line feed. *)
Fixpoint to_crlf (text : list ascii) : list ascii :=
  match text with
  | [] => []
  | c :: rest =>
      if bool_decide (c = LF) then CR :: LF :: to_crlf rest
      else c :: to_crlf rest
  end.

(** ** Writing a table *)

(** The tokens with [sep] between them. *)
Fixpoint join (sep : ascii) (ts : list (list ascii)) : list ascii :=
  match ts with
  | [] => []
  | t :: ts' =>
      match ts' with
      | [] => t
      | _ :: _ => t ++ sep :: join sep ts'
      end
  end.

(** A table as a space-delimited text: a line for every row, the fields of
    the row with one space between them. *)
Definition render (table : list row) : list ascii :=
  concat (map (λ r, join SPACE r ++ [LF]) table).

(** A token that can be written as it is: it holds no space, no tab, no line
    feed and no quote character, and it is no missing-value marker (so it is
    not empty). *)
Definition writable (t : token) : Prop :=
  (SPACE ∉ t) ∧ (TAB ∉ t) ∧ (LF ∉ t) ∧ (QUOTE ∉ t) ∧ plain_field t.

(** A table of [w] columns that can be written: it has a row, every row has
    [w] tokens, [w] is not zero, and every token is writable. *)
Definition writable_table (w : nat) (table : list row) : Prop :=
  0 < w ∧ table ≠ [] ∧ Forall (λ r, length r = w ∧ Forall writable r) table.

(** ** More sample files *)

(** [ex1_dat] with the line endings of Windows. *)
Definition ex1_crlf_fs : filesystem :=
  {[ "/interim/lvq-pak/lvq_pak-3.1/ex1.dat" :=
       RegularFile (string_of_list_ascii (to_crlf ex1_text)) ]}.

(** A table of two rows and three columns. *)
Definition sample_table : list row :=
  [ [list_ascii_of_string "1.5"; list_ascii_of_string "2.5"; list_ascii_of_string "A"];
    [list_ascii_of_string "3.5"; list_ascii_of_string "4.5"; list_ascii_of_string "#"] ].

Definition sample_table_fs : filesystem :=
  {[ "table.dat" := RegularFile (string_of_list_ascii (render sample_table)) ]}.

(** A file whose last line is not closed by a line feed, and the same file
    with the line feed. *)
Definition unclosed_text : list ascii := list_ascii_of_string ("a b x" +:+ nl +:+ "c d y").
Definition unclosed_fs : filesystem :=
  {[ "rows.dat" := RegularFile ("a b x" +:+ nl +:+ "c d y") ]}.
Definition closed_fs : filesystem :=
  {[ "rows.dat" := RegularFile ("a b x" +:+ nl +:+ "c d y" +:+ nl) ]}.

(** Only the training file is there. *)
Definition train_only_fs : filesystem :=
  {[ "/interim/lvq-pak/lvq_pak-3.1/ex1.dat" := RegularFile ex1_dat ]}.

(** A file of one line: a label of two words in quotes. *)
Definition quoted_text : list ascii :=
  QUOTE :: list_ascii_of_string "some label" ++ [QUOTE; LF].
Definition quoted_fs : filesystem :=
  {[ "quoted.dat" := RegularFile (string_of_list_ascii quoted_text) ]}.

(** A file with a quote that is opened and never closed. *)
Definition open_quote_text : list ascii :=
  QUOTE :: list_ascii_of_string ("some label" +:+ nl +:+ "1.5 2.5" +:+ nl).
Definition open_quote_fs : filesystem :=
  {[ "open.dat" := RegularFile (string_of_list_ascii open_quote_text) ]}.

(** * Lemmas *)

(** ** Splitting *)

Lemma split_on_nonempty sep l : split_on sep l ≠ [].
Proof.
  destruct l as [|c l]; simpl; [done|].
  case_bool_decide; [done|]. by destruct (split_on sep l).
Qed.

Lemma split_on_length sep l :
  length (split_on sep l) = S (length (filter (λ c, c = sep) l)).
Proof.
  induction l as [|c l IH]; simpl; [done|].
  rewrite filter_cons. case_bool_decide.
  - rewrite decide_True by done. simpl. by rewrite IH.
  - rewrite decide_False by done.
    destruct (split_on sep l) eqn:E; simpl in *; [done|]. by rewrite <- IH.
Qed.

Lemma split_on_snoc_sep sep l : split_on sep (l ++ [sep]) = split_on sep l ++ [[]].
Proof.
  induction l as [|c l IH]; simpl.
  - by rewrite bool_decide_eq_true_2.
  - case_bool_decide; [by rewrite IH|].
    rewrite IH. pose proof (split_on_nonempty sep l).
    by destruct (split_on sep l).
Qed.

Lemma split_on_snoc sep l c init t :
  c ≠ sep → split_on sep l = init ++ [t] →
  split_on sep (l ++ [c]) = init ++ [t ++ [c]].
Proof.
  intros Hc. revert init t.
  induction l as [|a l IH]; intros init t E; simpl in *.
  - rewrite bool_decide_eq_false_2 by done.
    destruct init as [|? [|]]; by simplify_eq/=.
  - case_bool_decide.
    + destruct init as [|i init]; simplify_eq/=.
      * by pose proof (split_on_nonempty sep l).
      * by rewrite (IH init t).
    + destruct (split_on sep l) as [|p ps] eqn:E'.
      { by pose proof (split_on_nonempty sep l). }
      destruct init as [|i init]; simplify_eq/=.
      * by rewrite (IH [] p eq_refl).
      * by rewrite (IH (p :: init) t eq_refl).
Qed.

Lemma split_on_no_sep sep l : sep ∉ l → split_on sep l = [l].
Proof.
  induction l as [|c l IH]; intros H; simpl; [done|].
  apply not_elem_of_cons in H as [??].
  rewrite bool_decide_eq_false_2 by done. by rewrite IH.
Qed.

Lemma split_on_app sep l t :
  sep ∉ l → split_on sep (l ++ sep :: t) = l :: split_on sep t.
Proof.
  induction l as [|c l IH]; intros H; simpl.
  - by rewrite bool_decide_eq_true_2.
  - apply not_elem_of_cons in H as [??].
    rewrite bool_decide_eq_false_2 by done. by rewrite IH.
Qed.

(** Every text is its first line, alone or followed by a line feed and the
    rest of the text. *)
Lemma split_on_inv sep t l ls :
  split_on sep t = l :: ls →
  (sep ∉ l) ∧
  ((ls = [] ∧ t = l) ∨ (∃ t', t = l ++ sep :: t' ∧ split_on sep t' = ls)).
Proof.
  revert l ls. induction t as [|c t IH]; intros l ls E; simpl in *.
  - simplify_eq. split; [apply not_elem_of_nil|]. by left.
  - case_bool_decide; simplify_eq.
    + split; [apply not_elem_of_nil|]. right. by exists t.
    + destruct (split_on sep t) as [|p ps] eqn:E'.
      { by pose proof (split_on_nonempty sep t) as Hne. }
      simplify_eq. destruct (IH _ _ eq_refl) as [Hp Hcase].
      split; [by apply not_elem_of_cons|].
      destruct Hcase as [[-> ->]|(t' & -> & ?)]; [by left|].
      right. by exists t'.
Qed.

Lemma foldM_app {A S} (f : S → A → result S) s l1 l2 :
  foldM f s (l1 ++ l2) = (s' ← foldM f s l1; foldM f s' l2).
Proof.
  revert s. induction l1 as [|a l1 IH]; intros s; simpl; [done|].
  destruct (f s a); simpl; [apply IH|done].
Qed.

(** Closes goals [c ∉ l] for [l] built from lists and characters that are
    known not to hold [c]. *)
Ltac notin :=
  repeat first
    [ assumption
    | apply not_elem_of_nil
    | apply not_elem_of_app; split
    | apply not_elem_of_cons; split
    | done ].

(** Closes a decidable closed goal by evaluating its decision procedure. *)
Ltac by_computation :=
  apply (bool_decide_unpack _); vm_compute; exact I.

Lemma bind_Ok {A B} (a : A) (k : A → result B) : (Ok a ≫= k) = k a.
Proof. done. Qed.

Lemma foldM_cons {A S} (f : S → A → result S) s a l :
  foldM f s (a :: l) = (s' ← f s a; foldM f s' l).
Proof. done. Qed.

(** ** The byte order mark *)

Lemma tokenize_all_unfold (d : dialect) (text : list ascii) :
  tokenize_all d text =
    (p ← foldM (tokenize_byte d) parser_init (CHECK_FOR_BOM text);
     p ← parser_handle_eof p; Ok (rev (lines p))).
Proof. done. Qed.

Lemma CHECK_FOR_BOM_cases (text : list ascii) :
  (CHECK_FOR_BOM text = text ∧ ∀ rest, text ≠ BOM ++ rest) ∨
  text = BOM ++ CHECK_FOR_BOM text.
Proof.
  destruct text as [|a [|b [|c rest]]]; try (by left).
  unfold CHECK_FOR_BOM. case_bool_decide as H.
  - right. change (a :: b :: c :: rest) with ([a; b; c] ++ rest). by rewrite H.
  - left. split; [done|]. intros rest' E. apply H.
    unfold BOM in *. by simplify_eq/=.
Qed.

Lemma CHECK_FOR_BOM_notin (c : ascii) (text : list ascii) :
  c ∉ text → c ∉ CHECK_FOR_BOM text.
Proof.
  destruct (CHECK_FOR_BOM_cases text) as [[-> _]|E]; [done|].
  intros H. rewrite E in H. by apply not_elem_of_app in H as [_ ?].
Qed.

Lemma CHECK_FOR_BOM_head (c : ascii) (text : list ascii) :
  c ≠ "239"%char → CHECK_FOR_BOM (c :: text) = c :: text.
Proof.
  intros Hc. destruct text as [|b [|c' rest]]; try done.
  unfold CHECK_FOR_BOM. case_bool_decide as H; [|done].
  unfold BOM in H. by simplify_eq/=.
Qed.

Lemma CHECK_FOR_BOM_snoc_LF (text : list ascii) :
  CHECK_FOR_BOM (text ++ [LF]) = CHECK_FOR_BOM text ++ [LF].
Proof.
  destruct text as [|a [|b [|c rest]]]; try done.
  - simpl app. unfold CHECK_FOR_BOM. case_bool_decide as H; [|done].
    unfold BOM in H. by simplify_eq/=.
  - simpl app. unfold CHECK_FOR_BOM. by case_bool_decide.
Qed.

(** ** One line of the text *)

Section Lines.
Variable skiprows : list nat.
Let d := space_dialect skiprows.

Lemma in_record_step p l c :
  reading p l → c ≠ LF → c ≠ QUOTE →
  ∃ p', tokenize_in_record d p c = Ok p' ∧ reading p' (l ++ [c]) ∧
        lines p' = lines p ∧ file_lines p' = file_lines p.
Proof.
  intros [Hst Hf] Hlf Hq. unfold tokenize_in_record, IS_TERMINATOR, IS_QUOTE,
    IS_DELIMITER, IS_COMMENT_CHAR. simpl.
  rewrite (bool_decide_eq_false_2 (c = LF)), (bool_decide_eq_false_2 (c = QUOTE)) by done.
  unfold reading, fields in *.
  destruct Hst as [Hst|Hst]; rewrite Hst; case_bool_decide as Hsp; subst;
    eexists; (split; [reflexivity|]); simpl; rewrite ?Hst; split_and!; auto.
  - by rewrite Hf, split_on_snoc_sep.
  - symmetry. by apply split_on_snoc.
  - by rewrite Hf, split_on_snoc_sep.
  - symmetry. by apply split_on_snoc.
Qed.

Lemma in_record_fold p l l' :
  reading p l → LF ∉ l' → QUOTE ∉ l' →
  ∃ p', foldM (tokenize_in_record d) p l' = Ok p' ∧ reading p' (l ++ l') ∧
        lines p' = lines p ∧ file_lines p' = file_lines p.
Proof.
  revert p l. induction l' as [|c l' IH]; intros p l Hr Hlf Hq; simpl.
  - exists p. by rewrite app_nil_r.
  - apply not_elem_of_cons in Hlf as [??]. apply not_elem_of_cons in Hq as [??].
    destruct (in_record_step p l c) as (p1 & -> & Hr1 & E1 & E2); [done..|].
    simpl. destruct (IH p1 (l ++ [c])) as (p2 & -> & Hr2 & E3 & E4); [done..|].
    exists p2. rewrite <- app_assoc in Hr2. simpl in Hr2.
    split; [done|]. split; [done|]. split; congruence.
Qed.

Lemma tokenize_byte_in_record p c :
  state p = START_FIELD ∨ state p = IN_FIELD →
  tokenize_byte d p c = tokenize_in_record d p c.
Proof. intros [H|H]; unfold tokenize_byte; by rewrite H. Qed.

Lemma reading_fold p l l' :
  reading p l → LF ∉ l' → QUOTE ∉ l' →
  ∃ p', foldM (tokenize_byte d) p l' = Ok p' ∧ reading p' (l ++ l') ∧
        lines p' = lines p ∧ file_lines p' = file_lines p.
Proof.
  revert p l. induction l' as [|c l' IH]; intros p l Hr Hlf Hq; simpl.
  - exists p. by rewrite app_nil_r.
  - apply not_elem_of_cons in Hlf as [??]. apply not_elem_of_cons in Hq as [??].
    rewrite tokenize_byte_in_record by apply Hr.
    destruct (in_record_step p l c) as (p1 & -> & Hr1 & E1 & E2); [done..|].
    simpl. destruct (IH p1 (l ++ [c])) as (p2 & -> & Hr2 & E3 & E4); [done..|].
    exists p2. rewrite <- app_assoc in Hr2. simpl in Hr2.
    split; [done|]. split; [done|]. split; congruence.
Qed.

Lemma reading_pending q l :
  reading q l → rev (line_fields (end_field q)) = fields l.
Proof. by intros [_ H]. Qed.

Lemma end_line_push q :
  in_skip_line (state q) = false →
  end_line q =
    (acc' ← push_row (rev (line_fields q)) (lines q);
     Ok {| state := state q; stream := stream q; line_fields := [];
           lines := acc'; file_lines := S (file_lines q); line_seen := [] |}).
Proof.
  intros Hs. unfold end_line, push_row. rewrite Hs, length_rev.
  destruct (lines q); [done|]. by case_bool_decide.
Qed.

Lemma reading_LF q l :
  reading q l →
  tokenize_byte d q LF =
    (acc' ← push_row (fields l) (lines q);
     Ok (between_lines (S (file_lines q)) acc')).
Proof.
  intros Hr. rewrite tokenize_byte_in_record by apply Hr.
  assert (tokenize_in_record d q LF = END_LINE (end_field q)) as ->.
  { unfold tokenize_in_record. by destruct Hr as [[-> | ->] _]. }
  unfold END_LINE. rewrite end_line_push
    by (by destruct Hr as [[H|H] _]; simpl; rewrite H).
  rewrite (reading_pending q l) by done.
  simpl. by destruct (push_row _ _).
Qed.

Lemma reading_eof q l :
  reading q l →
  (q' ← parser_handle_eof q; Ok (lines q')) = push_row (fields l) (lines q).
Proof.
  intros Hr.
  assert (parser_handle_eof q = end_line (end_field q)) as ->.
  { unfold parser_handle_eof. by destruct Hr as [[-> | ->] _]. }
  rewrite end_line_push
    by (by destruct Hr as [[H|H] _]; simpl; rewrite H).
  rewrite (reading_pending q l) by done.
  simpl. by destruct (push_row _ _).
Qed.

Lemma not_tab_not_blank c :
  c ≠ TAB → isblank c && negb (IS_DELIMITER d c) = false.
Proof.
  intros H. unfold isblank, IS_DELIMITER. simpl.
  rewrite (bool_decide_eq_false_2 (c = TAB)) by done.
  case_bool_decide; by rewrite ?orb_false_r.
Qed.

Lemma tokenize_byte_whitespace n acc seen c :
  tokenize_byte d (at_state WHITESPACE_LINE n acc seen) c =
    if IS_TERMINATOR c then Ok (between_lines (S n) acc)
    else if isblank c && negb (IS_DELIMITER d c)
         then Ok (at_state WHITESPACE_LINE n acc (c :: seen))
         else foldM (tokenize_in_record d) (at_state START_FIELD n acc seen)
                    (rev (c :: seen)).
Proof. done. Qed.

Lemma tokenize_byte_start n acc c :
  tokenize_byte d (between_lines n acc) c =
    if bool_decide (n ∈ skiprows) then
      if IS_QUOTE c then Ok (at_state IN_QUOTED_FIELD_IN_SKIP_LINE n acc [])
      else if IS_TERMINATOR c then Ok (between_lines (S n) acc)
      else Ok (at_state IN_FIELD_IN_SKIP_LINE n acc [])
    else if IS_TERMINATOR c then Ok (between_lines (S n) acc)
    else if isblank c && negb (IS_DELIMITER d c)
         then Ok (at_state WHITESPACE_LINE n acc [c])
         else tokenize_in_record d (at_state START_FIELD n acc []) c.
Proof.
  unfold tokenize_byte, skip_this, IS_COMMENT_CHAR. simpl.
  by rewrite andb_true_r.
Qed.

(** A line that starts with tabs and then holds something else is read
    again from its first character. *)
Lemma whitespace_line_backtrack n acc seen l :
  LF ∉ seen → QUOTE ∉ seen → LF ∉ l → QUOTE ∉ l → blank_line l = false →
  ∃ q, foldM (tokenize_byte d) (at_state WHITESPACE_LINE n acc (rev seen)) l = Ok q ∧
       reading q (seen ++ l) ∧ lines q = acc ∧ file_lines q = n.
Proof.
  revert seen. induction l as [|c l IH]; intros seen Hs1 Hs2 Hl1 Hl2 Hb; [done|].
  apply not_elem_of_cons in Hl1 as [??]. apply not_elem_of_cons in Hl2 as [??].
  simpl in Hb. rewrite foldM_cons, tokenize_byte_whitespace.
  unfold IS_TERMINATOR. rewrite (bool_decide_eq_false_2 (c = LF)) by done.
  destruct (decide (c = TAB)) as [->|Hc].
  - rewrite bool_decide_eq_true_2 in Hb by done. simpl in Hb.
    assert (isblank TAB && negb (IS_DELIMITER d TAB) = true) as -> by done.
    destruct (IH (seen ++ [TAB])) as (q & Hq & Hr & ? & ?).
    1-5: notin.
    exists q. rewrite rev_app_distr in Hq. simpl in Hq.
    rewrite <- app_assoc in Hr. by rewrite <- Hq.
  - rewrite not_tab_not_blank by done.
    replace (rev (c :: rev seen)) with (seen ++ [c])
      by (simpl; by rewrite rev_involutive).
    destruct (in_record_fold (at_state START_FIELD n acc (rev seen))
                [] (seen ++ [c])) as (q1 & -> & Hr1 & E1 & E2).
    { split; [by left|done]. }
    1-2: notin.
    destruct (reading_fold q1 (seen ++ [c]) l) as (q & Hq & Hr & E3 & E4);
      [done..|].
    exists q. rewrite <- app_assoc in Hr. simpl in *.
    split; [done|]. split; [done|]. split; congruence.
Qed.

Lemma kept_line n acc l :
  n ∉ skiprows → LF ∉ l → QUOTE ∉ l → blank_line l = false →
  ∃ q, foldM (tokenize_byte d) (between_lines n acc) l = Ok q ∧
       reading q l ∧ lines q = acc ∧ file_lines q = n.
Proof.
  intros Hn Hl1 Hl2 Hb. destruct l as [|c l]; [done|].
  pose proof Hl1 as Hl1'. pose proof Hl2 as Hl2'.
  apply not_elem_of_cons in Hl1 as [??]. apply not_elem_of_cons in Hl2 as [??].
  rewrite foldM_cons, tokenize_byte_start. unfold IS_TERMINATOR.
  rewrite (bool_decide_eq_false_2 (n ∈ skiprows)),
    (bool_decide_eq_false_2 (c = LF)) by done.
  destruct (decide (c = TAB)) as [->|Hc].
  - assert (isblank TAB && negb (IS_DELIMITER d TAB) = true) as -> by done.
    simpl in Hb.
    destruct (whitespace_line_backtrack n acc [TAB] l) as (q & Hq & ?);
      [notin..|].
    exists q. split; [|done]. exact Hq.
  - rewrite not_tab_not_blank by done.
    destruct (in_record_step (at_state START_FIELD n acc []) [] c)
      as (q1 & -> & Hr1 & E1 & E2); [by split; [left|]|done..|].
    destruct (reading_fold q1 [c] l) as (q & Hq & Hr & E3 & E4); [done..|].
    exists q. simpl in *. split; [done|]. split; [done|]. split; congruence.
Qed.

(** A line of tabs keeps the parser in [WHITESPACE_LINE]. *)
Lemma blank_line_fold n acc seen l :
  blank_line l = true →
  ∃ seen', foldM (tokenize_byte d) (at_state WHITESPACE_LINE n acc seen) l =
           Ok (at_state WHITESPACE_LINE n acc seen').
Proof.
  revert seen. induction l as [|c l IH]; intros seen Hb; [by exists seen|].
  simpl in Hb. apply andb_true_iff in Hb as [Hc Hb].
  apply bool_decide_eq_true_1 in Hc as ->.
  rewrite foldM_cons, tokenize_byte_whitespace.
  assert (IS_TERMINATOR TAB = false) as -> by done.
  assert (isblank TAB && negb (IS_DELIMITER d TAB) = true) as -> by done.
  apply IH, Hb.
Qed.

Lemma skipped_line_fold s n acc l :
  skipping s → LF ∉ l → QUOTE ∉ l →
  ∃ s', skipping s' ∧
        foldM (tokenize_byte d) (at_state s n acc []) l = Ok (at_state s' n acc []).
Proof.
  revert s. induction l as [|c l IH]; intros s Hs Hl1 Hl2; [by exists s|].
  apply not_elem_of_cons in Hl1 as [??]. apply not_elem_of_cons in Hl2 as [??].
  rewrite foldM_cons.
  assert (∃ s1, skipping s1 ∧
            tokenize_byte d (at_state s n acc []) c = Ok (at_state s1 n acc []))
    as (s1 & Hs1 & ->).
  { unfold tokenize_byte, IS_TERMINATOR, IS_QUOTE, IS_DELIMITER.
    destruct Hs as [-> | ->]; simpl;
      rewrite (bool_decide_eq_false_2 (c = LF)) by done;
      rewrite ?(bool_decide_eq_false_2 (c = QUOTE)) by done;
      case_bool_decide; eexists; (split; [|reflexivity]);
      unfold skipping; auto. }
  by apply IH.
Qed.

Lemma skipping_LF s n acc :
  skipping s → tokenize_byte d (at_state s n acc []) LF = Ok (between_lines (S n) acc).
Proof. by intros [-> | ->]. Qed.

Lemma skipping_eof s n acc :
  skipping s →
  (q' ← parser_handle_eof (at_state s n acc []); Ok (lines q')) = Ok acc.
Proof. by intros [-> | ->]. Qed.

(** A whole line and the line feed that closes it. *)
Lemma line_LF n acc l :
  LF ∉ l → QUOTE ∉ l →
  foldM (tokenize_byte d) (between_lines n acc) (l ++ [LF]) =
    (acc' ← add_line skiprows n l acc; Ok (between_lines (S n) acc')).
Proof.
  intros Hl1 Hl2. rewrite foldM_app. unfold add_line.
  destruct (decide (n ∈ skiprows)) as [Hn|Hn].
  - rewrite (bool_decide_eq_true_2 (n ∈ skiprows)) by done. simpl orb. cbv iota.
    destruct l as [|c l].
    + simpl. rewrite tokenize_byte_start.
      by rewrite (bool_decide_eq_true_2 (n ∈ skiprows)).
    + pose proof Hl1 as Hl1'. pose proof Hl2 as Hl2'.
      apply not_elem_of_cons in Hl1' as [??]. apply not_elem_of_cons in Hl2' as [??].
      rewrite foldM_cons, tokenize_byte_start.
      rewrite (bool_decide_eq_true_2 (n ∈ skiprows)) by done.
      unfold IS_QUOTE, IS_TERMINATOR.
      rewrite (bool_decide_eq_false_2 (c = LF)),
        (bool_decide_eq_false_2 (c = QUOTE)) by done.
      destruct (skipped_line_fold IN_FIELD_IN_SKIP_LINE n acc l)
        as (s' & Hs' & E); [by left|done..|].
      change (Ok (at_state IN_FIELD_IN_SKIP_LINE n acc []) ≫= _)
        with (foldM (tokenize_byte d) (at_state IN_FIELD_IN_SKIP_LINE n acc []) l).
      rewrite E, bind_Ok, foldM_cons, skipping_LF by done. done.
  - rewrite (bool_decide_eq_false_2 (n ∈ skiprows)) by done. simpl orb.
    destruct (blank_line l) eqn:Hb.
    + destruct l as [|c l].
      * simpl. rewrite tokenize_byte_start.
        by rewrite (bool_decide_eq_false_2 (n ∈ skiprows)).
      * simpl in Hb. apply andb_true_iff in Hb as [Hc Hb].
        apply bool_decide_eq_true_1 in Hc as ->.
        rewrite foldM_cons, tokenize_byte_start.
        rewrite (bool_decide_eq_false_2 (n ∈ skiprows)) by done.
        assert (IS_TERMINATOR TAB = false) as -> by done.
        assert (isblank TAB && negb (IS_DELIMITER d TAB) = true) as -> by done.
        destruct (blank_line_fold n acc [TAB] l Hb) as (seen' & E).
        change (Ok (at_state WHITESPACE_LINE n acc [TAB]) ≫= _)
          with (foldM (tokenize_byte d) (at_state WHITESPACE_LINE n acc [TAB]) l).
        by rewrite E, bind_Ok, foldM_cons, tokenize_byte_whitespace.
    + destruct (kept_line n acc l) as (q & -> & Hr & <- & <-); [done..|].
      rewrite bind_Ok, foldM_cons, (reading_LF q l) by done.
      by destruct (push_row _ _).
Qed.

(** The last line of the text, which the end of the text closes. *)
Lemma line_eof n acc l :
  LF ∉ l → QUOTE ∉ l →
  (q ← foldM (tokenize_byte d) (between_lines n acc) l;
   q' ← parser_handle_eof q; Ok (lines q')) = add_line skiprows n l acc.
Proof.
  intros Hl1 Hl2. unfold add_line.
  destruct (decide (n ∈ skiprows)) as [Hn|Hn].
  - rewrite (bool_decide_eq_true_2 (n ∈ skiprows)) by done. simpl orb. cbv iota.
    destruct l as [|c l]; [done|].
    pose proof Hl1 as Hl1'. pose proof Hl2 as Hl2'.
    apply not_elem_of_cons in Hl1' as [??]. apply not_elem_of_cons in Hl2' as [??].
    rewrite foldM_cons, tokenize_byte_start.
    rewrite (bool_decide_eq_true_2 (n ∈ skiprows)) by done.
    unfold IS_QUOTE, IS_TERMINATOR.
    rewrite (bool_decide_eq_false_2 (c = LF)),
      (bool_decide_eq_false_2 (c = QUOTE)) by done.
    destruct (skipped_line_fold IN_FIELD_IN_SKIP_LINE n acc l)
      as (s' & Hs' & E); [by left|done..|].
    change (Ok (at_state IN_FIELD_IN_SKIP_LINE n acc []) ≫= _)
      with (foldM (tokenize_byte d) (at_state IN_FIELD_IN_SKIP_LINE n acc []) l).
    rewrite E. by apply skipping_eof.
  - rewrite (bool_decide_eq_false_2 (n ∈ skiprows)) by done. simpl orb.
    destruct (blank_line l) eqn:Hb.
    + destruct l as [|c l]; [done|].
      simpl in Hb. apply andb_true_iff in Hb as [Hc Hb].
      apply bool_decide_eq_true_1 in Hc as ->.
      rewrite foldM_cons, tokenize_byte_start.
      rewrite (bool_decide_eq_false_2 (n ∈ skiprows)) by done.
      assert (IS_TERMINATOR TAB = false) as -> by done.
      assert (isblank TAB && negb (IS_DELIMITER d TAB) = true) as -> by done.
      destruct (blank_line_fold n acc [TAB] l Hb) as (seen' & E).
      change (Ok (at_state WHITESPACE_LINE n acc [TAB]) ≫= _)
        with (foldM (tokenize_byte d) (at_state WHITESPACE_LINE n acc [TAB]) l).
      by rewrite E.
    + destruct (kept_line n acc l) as (q & -> & Hr & <- & <-); [done..|].
      by apply reading_eof.
Qed.

(** ** The whole text *)

Lemma tokenize_add_lines n acc text :
  quote_free text →
  (q ← foldM (tokenize_byte d) (between_lines n acc) text;
   q' ← parser_handle_eof q; Ok (lines q')) = add_lines skiprows n (split_on LF text) acc.
Proof.
  unfold quote_free.
  remember (split_on LF text) as ls eqn:E. revert text n acc E.
  induction ls as [|l ls IH]; intros text n acc E Hq.
  { by pose proof (split_on_nonempty LF text). }
  symmetry in E. apply split_on_inv in E as [Hl [[-> ->]|(t' & -> & E)]].
  - rewrite line_eof by done. simpl. by destruct (add_line skiprows n l acc).
  - apply not_elem_of_app in Hq as [Hq1 Hq2].
    apply not_elem_of_cons in Hq2 as [_ Hq2].
    change (l ++ LF :: t') with (l ++ [LF] ++ t').
    rewrite app_assoc, foldM_app, line_LF by done. simpl.
    destruct (add_line skiprows n l acc) as [acc'|e]; [|done].
    rewrite !bind_Ok. by apply IH.
Qed.

Lemma add_lines_kept n ls acc :
  add_lines skiprows n ls acc =
    foldM (λ acc r, push_row r acc) acc (map fields (kept_from skiprows n ls)).
Proof.
  revert n acc. induction ls as [|l ls IH]; intros n acc; simpl; [done|].
  unfold add_line. destruct (bool_decide (n ∈ skiprows) || blank_line l).
  - by rewrite bind_Ok.
  - simpl. destruct (push_row (fields l) acc); simpl; [apply IH|done].
Qed.

End Lines.

Lemma push_rows_fill w prev acc rs :
  length prev = w →
  foldM (λ acc r, push_row r acc) (prev :: acc) rs =
    (rest ← fill_rows w rs; Ok (rev rest ++ prev :: acc)).
Proof.
  revert prev acc. induction rs as [|r rs IH]; intros prev acc Hw; simpl; [done|].
  rewrite Hw. case_bool_decide; [done|].
  rewrite bind_Ok, IH by (unfold pad_row; rewrite length_app, length_replicate; lia).
  destruct (fill_rows w rs) as [rest|e]; simpl; [|done].
  by rewrite <- app_assoc.
Qed.

Lemma push_rows_assemble rs :
  (acc ← foldM (λ acc r, push_row r acc) [] rs; Ok (rev acc)) = assemble_rows rs.
Proof.
  destruct rs as [|r rs]; simpl; [done|].
  rewrite (push_rows_fill (length r)) by done.
  destruct (fill_rows (length r) rs) as [rest|e]; simpl; [|done].
  by rewrite rev_app_distr, rev_involutive.
Qed.

Lemma kept_from_snoc_empty skiprows n ls :
  kept_from skiprows n (ls ++ [[]]) = kept_from skiprows n ls.
Proof.
  revert n. induction ls as [|l ls IH]; intros n; simpl.
  - by rewrite orb_true_r.
  - by rewrite IH.
Qed.

Lemma kept_from_text_lines skiprows n text :
  kept_from skiprows n (split_on LF text) = kept_from skiprows n (text_lines text).
Proof.
  unfold text_lines. destruct (last (split_on LF text)) as [[|]|] eqn:E; try done.
  apply last_Some in E as [ls ->].
  by rewrite removelast_last, kept_from_snoc_empty.
Qed.

(** The tokenizer, run as [read_space_delimited] runs it on a text without
    quote characters, cuts every data line at its spaces. *)
Lemma tokenize_all_lines skiprows text :
  quote_free text →
  tokenize_all (space_dialect skiprows) text =
    assemble_rows (map fields (data_lines skiprows text)).
Proof.
  intros Hq. rewrite <- push_rows_assemble. unfold data_lines.
  apply (CHECK_FOR_BOM_notin QUOTE) in Hq.
  rewrite <- kept_from_text_lines, <- add_lines_kept,
    <- (tokenize_add_lines skiprows 0 [] _ Hq).
  rewrite tokenize_all_unfold. change parser_init with (between_lines 0 []).
  destruct (foldM _ _ _) as [q|e]; simpl; [|done].
  by destruct (parser_handle_eof q).
Qed.

(** ** The frame *)

Lemma fill_rows_find (w : nat) (rs : list row) :
  fill_rows w rs =
    match List.find (λ r, bool_decide (w < length r)) rs with
    | Some r => Err (ParserError (TooManyFields w (length r)))
    | None => Ok (map (pad_row w) rs)
    end.
Proof.
  induction rs as [|r rs IH]; simpl; [done|].
  case_bool_decide; [done|]. rewrite IH.
  by destruct (List.find _ rs).
Qed.

Lemma find_none_too_long (w : nat) (rs : list row) :
  List.find (λ r, bool_decide (w < length r)) rs = None ↔
  Forall (λ r, length r ≤ w)%nat rs.
Proof.
  induction rs as [|r rs IH]; simpl.
  - split; [by constructor|done].
  - case_bool_decide.
    + split; [done|]. intros H'. apply Forall_cons in H' as [??]. lia.
    + rewrite IH. split.
      * intros. constructor; [lia|done].
      * intros H'. by apply Forall_cons in H' as [??].
Qed.

Lemma pad_row_full (w : nat) (r : row) : length r = w → pad_row w r = r.
Proof. intros <-. unfold pad_row. by rewrite Nat.sub_diag, app_nil_r. Qed.

Lemma pad_row_length (w : nat) (r : row) :
  (length r ≤ w)%nat → length (pad_row w r) = w.
Proof. intros H. unfold pad_row. rewrite length_app, length_replicate. lia. Qed.

Lemma fields_length (line : list ascii) :
  length (fields line) = S (length (filter (λ c, c = SPACE) line)).
Proof. apply split_on_length. Qed.

Lemma seq_removelast k : removelast (seq 0 (S k)) = seq 0 k.
Proof. by rewrite seq_S, removelast_last. Qed.

Lemma seq_reverse_head k : reverse (seq 0 (S k)) = k :: reverse (seq 0 k).
Proof. by rewrite seq_S, reverse_snoc. Qed.

(** [read_space_delimited] computes what the reading by lines says. *)
Lemma read_space_delimited_by_lines fs filename skiprows class_labels metadata text :
  open_read fs filename = Ok text → quote_free text →
  read_space_delimited fs filename skiprows class_labels metadata =
    read_space_delimited_lines text skiprows class_labels metadata.
Proof.
  intros Hopen Hq. unfold read_space_delimited, read_space_delimited_lines.
  rewrite Hopen, bind_Ok. unfold read_csv.
  change {| delimiter := SPACE; commentchar := None; skipset := skiprows;
            skip_empty_lines := true |} with (space_dialect skiprows).
  rewrite tokenize_all_lines by done.
  destruct (data_lines skiprows text) as [|l ls]; [done|].
  simpl map. set (first := fields l). set (others := map fields ls).
  unfold assemble_rows. rewrite fill_rows_find.
  destruct (List.find _ others) as [r|] eqn:Hfind; [done|].
  rewrite !bind_Ok.
  assert (first :: map (pad_row (length first)) others =
          map (pad_row (length first)) (first :: others)) as ->.
  { simpl. by rewrite pad_row_full. }
  rewrite map_map.
  change (λ x, map convert_token (pad_row (length first) x))
    with (frame_row (length first)).
  unfold frame_arrays.
  destruct class_labels; [|done].
  unfold columns. simpl shape1.
  destruct (length first) as [|k] eqn:Hw.
  { (* a row is never without a field *)
    unfold first in Hw. by rewrite fields_length in Hw. }
  rewrite seq_reverse_head, seq_removelast. unfold loc_columns, loc_column.
  simpl. by rewrite length_seq, Nat.sub_0_r.
Qed.

(** When [read_space_delimited] returns: there is a first data line, no
    data line has more fields than it, and the arrays are those of the
    fields of the data lines. *)
Lemma read_space_delimited_lines_Ok text skiprows class_labels metadata res :
  read_space_delimited_lines text skiprows class_labels metadata = Ok res ↔
  ∃ first others,
    data_lines skiprows text = first :: others ∧
    Forall (λ l, length (fields l) ≤ length (fields first))%nat
           (data_lines skiprows text) ∧
    res = (frame_arrays (length (fields first)) class_labels
             (map fields (data_lines skiprows text)), metadata).
Proof.
  unfold read_space_delimited_lines.
  destruct (data_lines skiprows text) as [|l ls]; simpl map.
  { split; [done|]. by intros (? & ? & ? & _). }
  cbv beta iota zeta. destruct (List.find _ (map fields ls)) as [r|] eqn:Hfind.
  - split; [done|]. intros (? & ? & ? & Hall & _). simplify_eq.
    apply find_some in Hfind as [Hin Hlong].
    apply bool_decide_eq_true_1 in Hlong.
    apply in_map_iff in Hin as (l' & <- & Hin). apply list_elem_of_In in Hin.
    apply Forall_cons in Hall as [_ Hall].
    pose proof (proj1 (Forall_forall _ _) Hall l' Hin). simpl in *. lia.
  - apply find_none_too_long in Hfind. split.
    + intros ?. simplify_eq. exists l, ls. split; [done|]. split; [|done].
      constructor; [done|]. by apply Forall_fmap in Hfind.
    + intros (? & ? & ? & _ & ->). by simplify_eq.
Qed.

Lemma lookup_map {A B} (f : A → B) (l : list A) (i : nat) :
  map f l !! i = f <$> (l !! i).
Proof.
  revert i. induction l as [|a l IH]; intros [|i]; simpl; done.
Qed.

Lemma nth_lookup_Some {A} (l : list A) (i : nat) (x dflt : A) :
  l !! i = Some x → nth i l dflt = x.
Proof.
  revert i. induction l as [|a l IH]; intros [|i] H; simplify_eq/=; [done|].
  by apply IH.
Qed.

(** A string of one character is no missing-value marker. *)
Lemma is_na_single (c : ascii) : is_na (String c "") = false.
Proof.
  apply bool_decide_eq_false_2. unfold STR_NA_VALUES. intros H.
  repeat (apply elem_of_cons in H as [H|H]; [discriminate H|]).
  by apply elem_of_nil in H.
Qed.

Lemma convert_token_single (c : ascii) : convert_token [c] = Str (String c "").
Proof. unfold convert_token. simpl. by rewrite is_na_single. Qed.

Lemma convert_token_plain (t : token) :
  is_na (string_of_list_ascii t) = false →
  convert_token t = Str (string_of_list_ascii t).
Proof. unfold convert_token. by intros ->. Qed.

Lemma frame_row_lookup (w : nat) (r : row) (j : nat) (t : token) :
  r !! j = Some t → frame_row w r !! j = Some (convert_token t).
Proof.
  intros H. unfold frame_row, pad_row.
  by rewrite lookup_map, lookup_app_l, H by (by eapply lookup_lt_Some).
Qed.

Lemma frame_row_length (w : nat) (r : row) :
  (length r ≤ w)%nat → length (frame_row w r) = w.
Proof. intros H. unfold frame_row. by rewrite length_map, pad_row_length. Qed.

(** ** No character is a comment marker

    With [comment=None] the tokenizer has no comment character. Whatever the
    text, the hash character is read as any other character that is neither
    a separator nor a quote: writing another such character for it changes
    the tokens in the same way and nothing else. *)

Section Renaming.
Variable d : dialect.
Variables a b : ascii.
Hypothesis ordinary_a : ordinary d a.
Hypothesis ordinary_b : ordinary d b.

Let σ := rename a b.
Let rp := rename_parser a b.

Lemma rename_tests c :
  IS_TERMINATOR (σ c) = IS_TERMINATOR c ∧ IS_QUOTE (σ c) = IS_QUOTE c ∧
  IS_DELIMITER d (σ c) = IS_DELIMITER d c ∧
  IS_COMMENT_CHAR d (σ c) = IS_COMMENT_CHAR d c ∧ isblank (σ c) = isblank c.
Proof.
  destruct ordinary_a as (Ha1 & Ha2 & Ha3 & Ha4 & Ha5 & _).
  destruct ordinary_b as (Hb1 & Hb2 & Hb3 & Hb4 & Hb5 & _).
  unfold σ, rename. case_bool_decide; [subst c|done].
  by rewrite Ha1, Ha2, Ha3, Ha4, Ha5, Hb1, Hb2, Hb3, Hb4, Hb5.
Qed.

Lemma map_replicate_nil {A B} (f : list A → list B) n :
  f [] = [] → map f (replicate n []) = replicate n [].
Proof. intros H. induction n as [|n IH]; simpl; [done|]. by rewrite H, IH. Qed.

Lemma set_state_rename s p : set_state s (rp p) = rp (set_state s p).
Proof. done. Qed.

Lemma push_char_rename c p : push_char (σ c) (rp p) = rp (push_char c p).
Proof. done. Qed.

Lemma see_blank_rename c p : see_blank (σ c) (rp p) = rp (see_blank c p).
Proof. done. Qed.

Lemma incr_file_lines_rename p : incr_file_lines (rp p) = rp (incr_file_lines p).
Proof. done. Qed.

Lemma end_field_rename p : end_field (rp p) = rp (end_field p).
Proof. unfold end_field, rp, rename_parser. simpl. by rewrite map_rev. Qed.

Lemma end_line_rename p : end_line (rp p) = rp <$> end_line p.
Proof.
  unfold end_line. cbn [rp rename_parser state line_fields lines stream file_lines].
  rewrite length_map. destruct (in_skip_line (state p)); [done|].
  destruct (lines p) as [|prev ls]; simpl.
  - unfold rp, rename_parser. simpl. by rewrite map_rev.
  - rewrite length_map. case_bool_decide; [done|]. simpl.
    unfold rp, rename_parser. simpl.
    by rewrite map_app, map_rev, map_replicate_nil.
Qed.

Lemma END_LINE_rename p : END_LINE (rp p) = rp <$> END_LINE p.
Proof. unfold END_LINE. rewrite end_line_rename. by destruct (end_line p). Qed.

Lemma tokenize_in_record_rename p c :
  tokenize_in_record d (rp p) (σ c) = rp <$> tokenize_in_record d p c.
Proof.
  destruct (rename_tests c) as (H1 & H2 & H3 & H4 & H5).
  unfold tokenize_in_record. rewrite H1, H2, H3, H4.
  change (state (rp p)) with (state p).
  destruct (state p); try done;
    destruct (IS_TERMINATOR c), (IS_QUOTE c), (IS_DELIMITER d c),
      (IS_COMMENT_CHAR d c);
    rewrite ?push_char_rename, ?end_field_rename, ?set_state_rename,
      ?END_LINE_rename; done.
Qed.

Lemma foldM_rename (f : parser_t → ascii → result parser_t) p l :
  (∀ p c, f (rp p) (σ c) = rp <$> f p c) →
  foldM f (rp p) (map σ l) = rp <$> foldM f p l.
Proof.
  intros Hf. revert p. induction l as [|c l IH]; intros p; simpl; [done|].
  rewrite Hf. destruct (f p c); simpl; [apply IH|done].
Qed.

Lemma tokenize_byte_rename p c :
  tokenize_byte d (rp p) (σ c) = rp <$> tokenize_byte d p c.
Proof.
  destruct (rename_tests c) as (H1 & H2 & H3 & H4 & H5).
  unfold tokenize_byte. rewrite H1, H2, H3, H4, H5.
  change (state (rp p)) with (state p).
  change (file_lines (rp p)) with (file_lines p).
  destruct (state p) eqn:Hst;
    try (by rewrite tokenize_in_record_rename);
    destruct (IS_TERMINATOR c), (IS_QUOTE c), (IS_DELIMITER d c),
      (IS_COMMENT_CHAR d c), (isblank c), (skip_this d (file_lines p)),
      (skip_empty_lines d); simpl;
    rewrite ?see_blank_rename, ?incr_file_lines_rename, ?set_state_rename,
      ?END_LINE_rename, ?tokenize_in_record_rename; try done.
  all: change [σ c] with (map (rename a b) [c]);
       rewrite <- map_rev, <- map_app;
       apply foldM_rename, tokenize_in_record_rename.
Qed.

Lemma parser_handle_eof_rename p :
  parser_handle_eof (rp p) = rp <$> parser_handle_eof p.
Proof.
  unfold parser_handle_eof. change (state (rp p)) with (state p).
  destruct (state p); rewrite ?end_field_rename, ?end_line_rename; done.
Qed.

Lemma rename_BOM c k : k ∈ BOM → σ c = k ↔ c = k.
Proof.
  intros Hk. destruct ordinary_a as (_ & _ & _ & _ & _ & Ha).
  destruct ordinary_b as (_ & _ & _ & _ & _ & Hb).
  unfold σ, rename. case_bool_decide as E; [subst c|done].
  split; intros ->; done.
Qed.

Lemma rename_BOM_1 c k : σ c = k → k ∈ BOM → c = k.
Proof. intros H Hk. by apply rename_BOM. Qed.

Lemma CHECK_FOR_BOM_rename text :
  CHECK_FOR_BOM (map σ text) = map σ (CHECK_FOR_BOM text).
Proof.
  destruct text as [|x [|y [|z rest]]]; try done.
  change (CHECK_FOR_BOM (map σ (x :: y :: z :: rest))) with
    (if bool_decide ([σ x; σ y; σ z] = BOM) then map σ rest
     else map σ (x :: y :: z :: rest)).
  change (CHECK_FOR_BOM (x :: y :: z :: rest)) with
    (if bool_decide ([x; y; z] = BOM) then rest else x :: y :: z :: rest).
  rewrite (bool_decide_ext ([σ x; σ y; σ z] = BOM) ([x; y; z] = BOM)).
  { by case_bool_decide. }
  unfold BOM at 1 2. split; intros [= H1 H2 H3].
  - apply rename_BOM_1 in H1; [|unfold BOM; by repeat constructor].
    apply rename_BOM_1 in H2; [|unfold BOM; by repeat constructor].
    apply rename_BOM_1 in H3; [|unfold BOM; by repeat constructor].
    by subst.
  - subst. f_equal; [|f_equal; [|f_equal]]; try done;
      apply rename_BOM; try done; unfold BOM; by repeat constructor.
Qed.

Lemma tokenize_all_rename text :
  tokenize_all d (map σ text) =
    map (map (map σ)) <$> tokenize_all d text.
Proof.
  rewrite !tokenize_all_unfold, CHECK_FOR_BOM_rename.
  change parser_init with (rp parser_init).
  rewrite foldM_rename by apply tokenize_byte_rename.
  change (rp parser_init) with parser_init.
  destruct (foldM _ parser_init _) as [p|]; simpl; [|done].
  rewrite parser_handle_eof_rename.
  destruct (parser_handle_eof p) as [p'|]; simpl; [|done].
  unfold rp, rename_parser. simpl. by rewrite map_rev.
Qed.

End Renaming.

(** * Examples *)

Example read_ex1 :
  read_space_delimited sample_fs "/interim/lvq-pak/lvq_pak-3.1/ex1.dat" [0; 1] true PyNone =
    Ok ({| shape1 := 2; rows := [[Str "1.5"; Str "2.5"]; [Str "3.5"; Str "4.5"]] |},
        [Str "A"; Str "#"], PyNone).
Proof. reflexivity. Qed.

(** With [comment='#'] the same call would lose the label of the last row:
    this is what [comment=None] avoids. *)
Example read_ex1_with_comment_marker :
  read_csv ex1_text [0; 1] true (Some "#"%char) SPACE =
    Ok {| values := {| shape1 := 3;
                       rows := [[Str "1.5"; Str "2.5"; Str "A"];
                                [Str "3.5"; Str "4.5"; NaN]] |} |}.
Proof. reflexivity. Qed.

(** A line of tabs is blank and gives no row; a line that holds a space is
    not: it is cut at the space, into fields that are empty. *)
Example tab_line_is_skipped :
  read_csv (list_ascii_of_string ("a b" +:+ nl +:+ String TAB "" +:+ nl +:+ "c d"))
           [] true None SPACE =
    Ok {| values := {| shape1 := 2; rows := [[Str "a"; Str "b"]; [Str "c"; Str "d"]] |} |}.
Proof. reflexivity. Qed.

Example space_line_is_a_row :
  read_csv (list_ascii_of_string ("a b" +:+ nl +:+ " " +:+ nl +:+ "c d"))
           [] true None SPACE =
    Ok {| values := {| shape1 := 2;
                       rows := [[Str "a"; Str "b"]; [NaN; NaN]; [Str "c"; Str "d"]] |} |}.
Proof. reflexivity. Qed.

(** The byte order mark is no part of the first field; bytes that are no
    UTF-8 and a directory are errors of the handle. *)
Example byte_order_mark_is_dropped :
  read_space_delimited marked_fs "marked.dat" [] false PyNone =
    Ok ({| shape1 := 2; rows := [[Str "a"; Str "b"]] |}, [Zero], PyNone).
Proof. reflexivity. Qed.

Example undecodable_file :
  read_space_delimited marked_fs "latin.dat" [] false PyNone = Err UnicodeDecodeError.
Proof. reflexivity. Qed.

Example directory_is_refused :
  read_space_delimited marked_fs "interim" [] false PyNone =
    Err (OSError IsADirectoryError "interim").
Proof. reflexivity. Qed.

(** The paths of [pathlib]: names are set below the directory, an absolute
    name takes its place, and empty names and [.] are dropped. *)
Example lvq_file_default :
  lvq_file "/interim" "lvq-pak" "ex1.dat" = "/interim/lvq-pak/lvq_pak-3.1/ex1.dat".
Proof. reflexivity. Qed.

Example lvq_file_absolute_name :
  lvq_file "/interim" "/data/lvq-pak" "ex1.dat" = "/data/lvq-pak/lvq_pak-3.1/ex1.dat".
Proof. reflexivity. Qed.

Example lvq_file_normalised :
  lvq_file "/interim/" "./lvq-pak//" "ex1.dat" = "/interim/lvq-pak/lvq_pak-3.1/ex1.dat".
Proof. reflexivity. Qed.

(** * The claims *)

(** In a file without quote characters, a field of a data line that
    consists of one character, whichever it is, comes out as it is written:
    in [target] when it stands in the label column, in the same column of
    [data] otherwise. *)
Lemma single_character_field_kept
    (fs : filesystem) (filename : string) (skiprows : list nat)
    (metadata metadata' : pyobj) (text : list ascii)
    (data : ndarray) (target : list value)
    (i j : nat) (line : list ascii) (c : ascii) :
  open_read fs filename = Ok text → quote_free text →
  read_space_delimited fs filename skiprows true metadata = Ok (data, target, metadata') →
  data_lines skiprows text !! i = Some line →
  fields line !! j = Some [c] →
  (j = shape1 data → target !! i = Some (Str (String c ""))) ∧
  (j ≠ shape1 data →
     ∃ r, rows data !! i = Some r ∧ r !! j = Some (Str (String c ""))).
Proof.
  intros Hopen Hq Hread Hline Hfield.
  rewrite (read_space_delimited_by_lines _ _ _ _ _ text) in Hread by done.
  unfold read_space_delimited_lines in Hread.
  destruct (map fields (data_lines skiprows text)) as [|first others] eqn:Hrows;
    [done|].
  destruct (List.find _ others) as [?|] eqn:Hfind; [done|].
  apply find_none_too_long in Hfind.
  assert (Forall (λ r, length r ≤ length first)%nat (first :: others)) as Hall
    by (by constructor).
  assert ((first :: others) !! i = Some (fields line)) as Hi
    by (by rewrite <- Hrows, lookup_map, Hline).
  pose proof (proj1 (Forall_lookup _ _) Hall _ _ Hi) as Hlen. simpl in Hlen.
  pose proof (lookup_lt_Some _ _ _ Hfield) as Hj.
  pose proof (frame_row_lookup (length first) _ _ _ Hfield) as Hcell.
  rewrite convert_token_single in Hcell.
  cbv zeta in Hread. remember (first :: others) as rs eqn:Hrs.
  injection Hread as <- <- <-. simpl shape1. simpl rows.
  split.
  - intros ->. rewrite !lookup_map, Hi. simpl. f_equal.
    by apply nth_lookup_Some.
  - intros Hne. exists (take (length first - 1) (frame_row (length first) (fields line))).
    split; [by rewrite !lookup_map, Hi|].
    rewrite lookup_take_lt by lia. done.
Qed.



Lemma frame_row_plain (w : nat) (r : row) :
  length r = w → Forall plain_field r → frame_row w r = map str r.
Proof.
  intros Hw Hp. unfold frame_row. rewrite pad_row_full by done. clear Hw.
  induction Hp as [|t r Ht Hp IH]; simpl; [done|].
  by rewrite convert_token_plain, IH.
Qed.

Lemma frame_row_full (w : nat) (r : row) :
  length r = w → frame_row w r = map convert_token r.
Proof. intros Hw. unfold frame_row. by rewrite pad_row_full. Qed.

Lemma map_convert_plain (r : row) :
  Forall plain_field r → map convert_token r = map str r.
Proof.
  induction 1 as [|t r Ht Hp IH]; simpl; [done|].
  by rewrite convert_token_plain, IH.
Qed.




(** ** Fields and runs of whitespace *)

(** C3, counterexample. Two spaces in a row separate three fields, the one
    in the middle empty, while the line has two runs of characters other
    than whitespace. *)
Lemma double_space_three_fields :
  read_space_delimited double_space_fs "words.dat" [] false PyNone =
    Ok ({| shape1 := 3; rows := [[Str "a"; NaN; Str "b"]] |}, [Zero], PyNone) ∧
  nonwhitespace_runs double_space_line = 2 ∧
  ¬ fields_are_whitespace_runs double_space_fs "words.dat".
Proof.
  split; [reflexivity|]. split; [reflexivity|].
  intros H.
  by specialize (H double_space_text double_space_line _ _ _ eq_refl eq_refl eq_refl).
Qed.

Lemma split_on_pieces (sep : ascii) (l : list ascii) :
  Forall (λ t, sep ∉ t) (split_on sep l).
Proof.
  induction l as [|c l IH]; simpl.
  - constructor; [apply not_elem_of_nil|done].
  - case_bool_decide as Hc.
    + constructor; [apply not_elem_of_nil|done].
    + destruct (split_on sep l) as [|piece pieces].
      * constructor; [|done]. notin; by intros ->.
      * apply Forall_cons in IH as [Hp Hps]. constructor; [|done].
        notin; by intros ->.
Qed.

Lemma join_split_on (sep : ascii) (l : list ascii) :
  join sep (split_on sep l) = l.
Proof.
  induction l as [|c l IH]; simpl; [done|].
  pose proof (split_on_nonempty sep l) as Hne.
  case_bool_decide as Hc.
  - subst c. destruct (split_on sep l) as [|piece pieces]; [done|].
    simpl in *. by rewrite IH.
  - destruct (split_on sep l) as [|piece pieces]; [done|].
    simpl in *. destruct pieces; simpl in *; by rewrite <- IH.
Qed.

(** C3, amended. On a file without quote characters, the parser cuts every
    data line at each single space and nowhere else: the fields hold no
    space and, set one after the other with a space between them, give the
    line again, so a line has one field more than it has spaces, and a line
    without a space is one field whatever tabs it holds. The fields of data
    line [i] are the entries of row [i]; an empty field, as there is one
    between two spaces in a row, is read as the missing value. *)
Theorem fields_cut_at_each_space
    (fs : filesystem) (filename : string) (skiprows : list nat)
    (metadata metadata' : pyobj) (text : list ascii)
    (full : ndarray) (zeros : list value) (i : nat) (line : list ascii) :
  open_read fs filename = Ok text → quote_free text →
  read_space_delimited fs filename skiprows false metadata =
    Ok (full, zeros, metadata') →
  data_lines skiprows text !! i = Some line →
  length (fields line) = S (length (filter (λ c, c = SPACE) line)) ∧
  Forall (λ t, SPACE ∉ t) (fields line) ∧
  join SPACE (fields line) = line ∧
  (SPACE ∉ line → fields line = [line]) ∧
  ∃ r, rows full !! i = Some r ∧
       ∀ j t, fields line !! j = Some t →
         r !! j = Some (convert_token t) ∧ (t = [] → r !! j = Some NaN).
Proof.
  intros Hopen Hq Hread Hline.
  split; [apply fields_length|]. split; [apply split_on_pieces|].
  split; [apply join_split_on|]. split; [apply split_on_no_sep|].
  rewrite (read_space_delimited_by_lines _ _ _ _ _ text) in Hread by done.
  apply read_space_delimited_lines_Ok in Hread
    as (first & others & _ & Hall & Hres).
  unfold frame_arrays in Hres. simplify_eq. simpl in *.
  exists (frame_row (length (fields first)) (fields line)).
  split; [by rewrite !lookup_map, Hline|].
  intros j t Hj. pose proof (frame_row_lookup (length (fields first)) _ _ _ Hj) as Hc.
  split; [done|]. by intros ->.
Qed.

Lemma fields_cut_at_each_space_witness :
  let full := {| shape1 := 3; rows := [[Str "a"; NaN; Str "b"]] |} in
  open_read double_space_fs "words.dat" = Ok double_space_text ∧
  quote_free double_space_text ∧
  read_space_delimited double_space_fs "words.dat" [] false PyNone =
    Ok (full, [Zero], PyNone) ∧
  data_lines [] double_space_text !! 0 = Some double_space_line ∧
  length (fields double_space_line) = 3 ∧
  ∃ r, rows full !! 0 = Some r ∧ r !! 1 = Some NaN.
Proof.
  intros full.
  assert (open_read double_space_fs "words.dat" = Ok double_space_text) as H1
    by reflexivity.
  assert (quote_free double_space_text) as H2 by (unfold quote_free; by_computation).
  assert (read_space_delimited double_space_fs "words.dat" [] false PyNone =
            Ok (full, [Zero], PyNone)) as H3 by reflexivity.
  assert (data_lines [] double_space_text !! 0 = Some double_space_line) as H4
    by reflexivity.
  split; [exact H1|]. split; [exact H2|]. split; [exact H3|]. split; [exact H4|].
  destruct (fields_cut_at_each_space double_space_fs "words.dat" [] PyNone PyNone
              double_space_text full [Zero] 0 double_space_line H1 H2 H3 H4)
    as (Hlen & _ & _ & _ & r & Hr & Hcells).
  split; [exact Hlen|]. exists r. split; [exact Hr|].
  exact (proj2 (Hcells 1 [] eq_refl) eq_refl).
Defined.

(** ** Rows of different lengths *)

(** C4, counterexample. A row with fewer fields than the first does not
    make the parser fail: the row is filled up with missing values, and the
    label of that row is a missing value. *)
Lemma short_row_accepted :
  map (λ l, length (fields l)) (data_lines [] short_row_text) = [3; 2] ∧
  read_space_delimited short_row_fs "rows.dat" [] true PyNone =
    Ok ({| shape1 := 2; rows := [[Str "a"; Str "b"]; [Str "d"; Str "e"]] |},
        [Str "c"; NaN], PyNone) ∧
  ¬ uneven_rows_rejected short_row_fs "rows.dat" [].
Proof.
  split; [reflexivity|]. split; [reflexivity|].
  intros H.
  destruct (H short_row_text (list_ascii_of_string "a b c")
              [list_ascii_of_string "d e"] eq_refl eq_refl) as [e He].
  - apply Exists_cons_hd. by vm_compute.
  - discriminate He.
Qed.

(** C4, amended. On a file without quote characters the parser fails, with
    the tokenizer's [ParserError], exactly when some data line has more
    fields than the first data line. A data line with fewer fields does not
    make it fail: the row is filled up with missing values. *)
Theorem longer_row_rejected
    (fs : filesystem) (filename : string) (skiprows : list nat)
    (class_labels : bool) (metadata : pyobj)
    (text first : list ascii) (others : list (list ascii)) :
  open_read fs filename = Ok text → quote_free text →
  data_lines skiprows text = first :: others →
  (Exists (λ l, length (fields first) < length (fields l)) others →
     ∃ saw, length (fields first) < saw ∧
       read_space_delimited fs filename skiprows class_labels metadata =
         Err (ParserError (TooManyFields (length (fields first)) saw))) ∧
  (Forall (λ l, length (fields l) ≤ length (fields first))%nat others →
     read_space_delimited fs filename skiprows class_labels metadata =
       Ok (frame_arrays (length (fields first)) class_labels
             (map fields (first :: others)), metadata)).
Proof.
  intros Hopen Hq Hlines.
  rewrite (read_space_delimited_by_lines _ _ _ _ _ text) by done.
  split.
  - intros Hex. unfold read_space_delimited_lines. rewrite Hlines. simpl map.
    cbv beta iota zeta.
    destruct (List.find _ (map fields others)) as [r|] eqn:Hfind.
    + apply find_some in Hfind as [_ Hlong].
      apply bool_decide_eq_true_1 in Hlong. by exists (length r).
    + exfalso. apply find_none_too_long in Hfind.
      apply Exists_exists in Hex as (l & Hin & Hl).
      apply Forall_fmap in Hfind.
      pose proof (proj1 (Forall_forall _ _) Hfind l Hin). simpl in *. lia.
  - intros Hall. apply read_space_delimited_lines_Ok.
    exists first, others. rewrite Hlines. split; [done|]. split; [|done].
    by constructor.
Qed.

Lemma longer_row_rejected_witness :
  let first := list_ascii_of_string "a b" in
  let others := [list_ascii_of_string "c d e"] in
  open_read long_row_fs "rows.dat" = Ok long_row_text ∧ quote_free long_row_text ∧
  data_lines [] long_row_text = first :: others ∧
  Exists (λ l, length (fields first) < length (fields l)) others ∧
  ∃ saw, length (fields first) < saw ∧
    read_space_delimited long_row_fs "rows.dat" [] true PyNone =
      Err (ParserError (TooManyFields (length (fields first)) saw)).
Proof.
  intros first others.
  assert (open_read long_row_fs "rows.dat" = Ok long_row_text) as H1 by reflexivity.
  assert (quote_free long_row_text) as H2 by (unfold quote_free; by_computation).
  assert (data_lines [] long_row_text = first :: others) as H3 by reflexivity.
  assert (Exists (λ l, length (fields first) < length (fields l)) others) as H4
    by (apply Exists_cons_hd; vm_compute; lia).
  split_and!; try assumption.
  exact (proj1 (longer_row_rejected long_row_fs "rows.dat" [] true PyNone
                  long_row_text first others H1 H2 H3) H4).
Defined.

(** ** Skipped lines and blank lines *)

Lemma kept_from_past (skiprows : list nat) (n : nat) (ls : list (list ascii)) :
  (∀ m, n ≤ m → m ∉ skiprows) →
  kept_from skiprows n ls = filter (λ l, blank_line l = false) ls.
Proof.
  revert n. induction ls as [|l ls IH]; intros n Hn; simpl; [done|].
  rewrite (bool_decide_eq_false_2 (n ∈ skiprows)) by (by apply Hn).
  rewrite filter_cons, IH by (intros m ?; apply Hn; lia).
  by destruct (blank_line l).
Qed.

Lemma blank_partition (ls : list (list ascii)) :
  length (filter (λ l, blank_line l = false) ls) +
  length (filter (λ l, blank_line l = true) ls) = length ls.
Proof.
  induction ls as [|l ls IH]; simpl; [done|].
  rewrite !filter_cons. destruct (blank_line l); simpl; lia.
Qed.

Lemma frame_arrays_shape (w : nat) (class_labels : bool) (rs : list row) :
  shape0 (frame_arrays w class_labels rs).1 = length rs ∧
  length (frame_arrays w class_labels rs).2 = length rs.
Proof.
  unfold frame_arrays, shape0, np_zeros.
  destruct class_labels; simpl; by rewrite ?length_map, ?length_replicate.
Qed.

(** The number of rows that [read_space_delimited] returns is the number
    of data lines. *)
Lemma read_space_delimited_shape fs filename skiprows class_labels metadata
    text data target metadata' :
  open_read fs filename = Ok text → quote_free text →
  read_space_delimited fs filename skiprows class_labels metadata =
    Ok (data, target, metadata') →
  shape0 data = length (data_lines skiprows text) ∧
  length target = length (data_lines skiprows text) ∧
  metadata' = metadata.
Proof.
  intros Hopen Hq Hread.
  rewrite (read_space_delimited_by_lines _ _ _ _ _ text) in Hread by done.
  apply read_space_delimited_lines_Ok in Hread as (first & others & _ & _ & Hres).
  pose proof (frame_arrays_shape (length (fields first)) class_labels
                (map fields (data_lines skiprows text))) as [H1 H2].
  rewrite length_map in H1, H2.
  destruct (frame_arrays _ _ _) as [d t]. by simplify_eq/=.
Qed.

(** A byte order mark changes nothing after the first line. *)
Lemma split_on_prefix (sep : ascii) (pre l : list ascii) :
  sep ∉ pre →
  split_on sep (pre ++ l) =
    match split_on sep l with
    | piece :: pieces => (pre ++ piece) :: pieces
    | [] => [pre]
    end.
Proof.
  induction pre as [|c pre IH]; intros H; simpl.
  - pose proof (split_on_nonempty sep l). by destruct (split_on sep l).
  - apply not_elem_of_cons in H as [Hc H].
    rewrite bool_decide_eq_false_2 by done. rewrite IH by done.
    by destruct (split_on sep l).
Qed.

Lemma text_lines_tail_BOM (text : list ascii) :
  tail (text_lines (CHECK_FOR_BOM text)) = tail (text_lines text).
Proof.
  destruct (CHECK_FOR_BOM_cases text) as [[-> _]|E]; [done|].
  rewrite E at 2. generalize (CHECK_FOR_BOM text). intros body.
  unfold text_lines. rewrite split_on_prefix by by_computation.
  pose proof (split_on_nonempty LF body) as Hne.
  destruct (split_on LF body) as [|piece [|q qs]]; [done| |].
  - by destruct piece.
  - change (last ((BOM ++ piece) :: q :: qs)) with (last (q :: qs)).
    change (last (piece :: q :: qs)) with (last (q :: qs)).
    by destruct (last (q :: qs)) as [[|]|].
Qed.

Lemma data_lines_first_skipped (skiprows : list nat) (text : list ascii) :
  0 ∈ skiprows →
  data_lines skiprows text = kept_from skiprows 1 (tail (text_lines text)).
Proof.
  intros H0. unfold data_lines. rewrite <- text_lines_tail_BOM.
  destruct (text_lines (CHECK_FOR_BOM text)) as [|l ls]; simpl; [done|].
  by rewrite bool_decide_eq_true_2.
Qed.




(** * The processing functions *)

(** ** What [read_space_delimited] does on every file *)

Lemma foldM_Err {A S} (P : exn → Prop) (f : S → A → result S) s l e :
  (∀ s a e, f s a = Err e → P e) → foldM f s l = Err e → P e.
Proof.
  intros Hf. revert s. induction l as [|a l IH]; intros s H; simpl in H; [done|].
  destruct (f s a) as [s'|e'] eqn:E; simpl in H.
  - by apply (IH s').
  - simplify_eq. by apply (Hf s a).
Qed.

Lemma end_line_Err p e : end_line p = Err e → parser_error e.
Proof.
  unfold end_line. destruct (in_skip_line _); [done|].
  destruct (lines p); [done|]. case_bool_decide; [|done].
  intros. by simplify_eq.
Qed.

Lemma END_LINE_Err p e : END_LINE p = Err e → parser_error e.
Proof.
  unfold END_LINE. destruct (end_line p) eqn:E; [done|].
  intros. simplify_eq/=. by apply (end_line_Err p).
Qed.

Lemma tokenize_in_record_Err d p c e :
  tokenize_in_record d p c = Err e → parser_error e.
Proof.
  unfold tokenize_in_record.
  destruct (state p); try done;
    repeat (match goal with |- context [if ?b then _ else _] => destruct b end);
    try done; apply END_LINE_Err.
Qed.

Lemma tokenize_byte_Err d p c e :
  tokenize_byte d p c = Err e → parser_error e.
Proof.
  unfold tokenize_byte.
  destruct (state p) eqn:Hst; try (rewrite <- Hst; apply tokenize_in_record_Err);
    repeat (match goal with |- context [if ?b then _ else _] => destruct b end);
    try done;
    try apply END_LINE_Err; try apply tokenize_in_record_Err.
  apply foldM_Err, tokenize_in_record_Err.
Qed.

Lemma tokenize_all_Err d text e :
  tokenize_all d text = Err e → parser_error e.
Proof.
  rewrite tokenize_all_unfold.
  destruct (foldM _ _ _) as [p|e'] eqn:E; simpl.
  - destruct (parser_handle_eof p) as [p'|e'] eqn:E'; simpl; [done|].
    intros. simplify_eq. unfold parser_handle_eof in E'.
    destruct (state p); try done; try (by apply (end_line_Err _ _ E')).
    by simplify_eq.
  - intros. simplify_eq. eapply foldM_Err; [|exact E]. apply tokenize_byte_Err.
Qed.

(** [read_space_delimited] never raises the plain [Exception]. *)
Lemma read_space_delimited_no_Exception fs filename skiprows class_labels metadata msg :
  read_space_delimited fs filename skiprows class_labels metadata ≠ Err (Exception msg).
Proof.
  unfold read_space_delimited, read_csv.
  destruct (open_read fs filename) as [fd|e] eqn:Hopen; simpl.
  - destruct (tokenize_all _ _) as [toks|e] eqn:E; simpl.
    + destruct toks; simpl; [done|]. destruct class_labels; [|done].
      by destruct (reverse _).
    + apply tokenize_all_Err in E. by destruct e.
  - unfold open_read in Hopen. case_bool_decide; [by simplify_eq|].
    destruct (fs !! filename) as [[raw|why]|]; [|by simplify_eq..].
    destruct (utf8_valid _); by simplify_eq.
Qed.

(** [read_space_delimited] hands [metadata] back, and returns one entry of
    [target] for every row of [data]. *)
Lemma read_space_delimited_returns fs filename skiprows class_labels metadata
    data target metadata' :
  read_space_delimited fs filename skiprows class_labels metadata =
    Ok (data, target, metadata') →
  metadata' = metadata ∧ length target = shape0 data ∧
  (class_labels = false → target = replicate (shape0 data) Zero).
Proof.
  unfold read_space_delimited.
  destruct (open_read fs filename) as [fd|]; simpl; [|done].
  destruct (read_csv fd skiprows true None SPACE) as [df|]; simpl; [|done].
  destruct class_labels.
  - destruct (reverse (columns df)); [done|]. intros. simplify_eq.
    unfold loc_column, loc_columns, shape0. simpl.
    by rewrite !length_map.
  - intros. simplify_eq. unfold np_zeros. by rewrite length_replicate.
Qed.

(** ** Runs of [process_lvq_pak] *)

Section LvqPakRuns.
Variable interim_data_path : string.
Variable fs : filesystem.
Variable dataset_name : string.
Variable metadata : pyobj.

Let ex1 := lvq_file interim_data_path dataset_name "ex1.dat".
Let ex2 := lvq_file interim_data_path dataset_name "ex2.dat".
Let md := metadata_or_empty metadata.

Lemma process_lvq_pak_train :
  process_lvq_pak interim_data_path fs dataset_name metadata "train" [] =
    (dataset_of dataset_name <$> read_space_delimited fs ex1 [0; 1] true md,
     [read_call md]).
Proof.
  unfold process_lvq_pak, mbind, M_bind, invoke, lift. simpl.
  unfold ex1, md, lvq_file.
  by destruct (read_space_delimited fs _ _ _ _) as [[[??]?]|].
Qed.

Lemma process_lvq_pak_test :
  process_lvq_pak interim_data_path fs dataset_name metadata "test" [] =
    (dataset_of dataset_name <$> read_space_delimited fs ex2 [0] true md,
     [read_call md]).
Proof.
  unfold process_lvq_pak, mbind, M_bind, invoke, lift. simpl.
  unfold ex2, md, lvq_file.
  by destruct (read_space_delimited fs _ _ _ _) as [[[??]?]|].
Qed.

Lemma process_lvq_pak_all :
  process_lvq_pak interim_data_path fs dataset_name metadata "all" [] =
    match read_space_delimited fs ex1 [0; 1] true md with
    | Err e => (Err e, [read_call md])
    | Ok (data1, target1, _) =>
        ('(data2, target2, _) ← read_space_delimited fs ex2 [0] true md;
         data ← np_vstack data1 data2;
         Ok (dataset_of dataset_name (data, np_append target1 target2, md)),
         [read_call md; read_call md])
    end.
Proof.
  unfold process_lvq_pak, mbind at 1 2 3 4, M_bind, invoke, lift. simpl.
  unfold ex1, ex2, md, lvq_file.
  destruct (read_space_delimited fs _ [0; 1] _ _) as [[[d1 t1] m1]|] eqn:E1; [|done].
  apply read_space_delimited_returns in E1 as (-> & _). simpl.
  destruct (read_space_delimited fs _ [0] _ _) as [[[d2 t2] m2]|] eqn:E2; [|done].
  apply read_space_delimited_returns in E2 as (-> & _). simpl.
  by destruct (np_vstack d1 d2).
Qed.

Lemma process_lvq_pak_unknown kind :
  kind ∉ supported_kinds →
  process_lvq_pak interim_data_path fs dataset_name metadata kind [] =
    (Err (Exception ("Unknown kind: " +:+ kind)), []).
Proof.
  intros Hk. unfold supported_kinds in Hk.
  apply not_elem_of_cons in Hk as [? Hk]. apply not_elem_of_cons in Hk as [? Hk].
  apply not_elem_of_cons in Hk as [? _].
  unfold process_lvq_pak, mbind, M_bind, raise.
  by rewrite !decide_False by done.
Qed.

End LvqPakRuns.

(** ** The dictionary *)

Lemma dset_opts_dom (dataset_name metadata data target : pyobj) :
  dom (dset_opts dataset_name metadata data target) =
    ({[ "dataset_name"; "metadata"; "data"; "target" ]} : gset string).
Proof. unfold dset_opts. rewrite !dom_insert_L, dom_singleton_L. set_solver. Qed.

Lemma dataset_of_data (dataset_name : string) (r : ndarray * list value * pyobj) :
  dataset_data (dataset_of dataset_name r) = Some r.1.1.
Proof. done. Qed.

Lemma dataset_of_target (dataset_name : string) (r : ndarray * list value * pyobj) :
  dataset_target (dataset_of dataset_name r) = Some r.1.2.
Proof. done. Qed.

(** C5. [process_lvq_pak] raises its exception for an unknown kind, with
    the message that names the kind, for every [kind] other than ['train'],
    ['test'] and ['all'], whatever the files are; for these three kinds it
    does not raise it. *)
Theorem unknown_kind_raises
    (interim_data_path : string) (fs : filesystem) (dataset_name : string)
    (metadata : pyobj) (kind : string) :
  (kind ∉ supported_kinds →
     returns (process_lvq_pak interim_data_path fs dataset_name metadata kind) =
       Err (Exception ("Unknown kind: " +:+ kind))) ∧
  (kind ∈ supported_kinds →
     ∀ msg, returns (process_lvq_pak interim_data_path fs dataset_name metadata kind) ≠
              Err (Exception msg)).
Proof.
  unfold returns. split.
  - intros Hk. by rewrite process_lvq_pak_unknown.
  - intros Hk msg. unfold supported_kinds in Hk.
    apply elem_of_cons in Hk as [->|Hk]; [|apply elem_of_cons in Hk as [->|Hk];
      [|apply elem_of_cons in Hk as [->|Hk]; [|by apply elem_of_nil in Hk]]].
    + rewrite process_lvq_pak_train. simpl.
      destruct (read_space_delimited _ _ _ _ _) eqn:E; simpl; [done|].
      intros ?. simplify_eq. by apply read_space_delimited_no_Exception in E.
    + rewrite process_lvq_pak_test. simpl.
      destruct (read_space_delimited _ _ _ _ _) eqn:E; simpl; [done|].
      intros ?. simplify_eq. by apply read_space_delimited_no_Exception in E.
    + rewrite process_lvq_pak_all.
      destruct (read_space_delimited _ _ [0; 1] _ _) as [[[d1 t1] m1]|] eqn:E1; simpl.
      * destruct (read_space_delimited _ _ [0] _ _) as [[[d2 t2] m2]|] eqn:E2; simpl.
        -- unfold np_vstack. by case_decide.
        -- intros ?. simplify_eq. by apply read_space_delimited_no_Exception in E2.
      * intros ?. simplify_eq. by apply read_space_delimited_no_Exception in E1.
Qed.

Lemma unknown_kind_raises_witness :
  ("bogus" ∉ supported_kinds) ∧
  returns (process_lvq_pak "/interim" sample_fs "lvq-pak" PyNone "bogus") =
    Err (Exception "Unknown kind: bogus") ∧
  ("train" ∈ supported_kinds) ∧
  returns (process_lvq_pak "/interim" sample_fs "lvq-pak" PyNone "train") ≠
    Err (Exception "Unknown kind: train").
Proof.
  assert ("bogus" ∉ supported_kinds) as H1 by (unfold supported_kinds; by_computation).
  assert ("train" ∈ supported_kinds) as H2 by (unfold supported_kinds; by_computation).
  split; [exact H1|]. split.
  { exact (proj1 (unknown_kind_raises "/interim" sample_fs "lvq-pak" PyNone "bogus") H1). }
  split; [exact H2|].
  exact (proj2 (unknown_kind_raises "/interim" sample_fs "lvq-pak" PyNone "train") H2 _).
Defined.

(** C9. The template [process_raw_data] reads the local variable
    [extract_function] before anything is bound to it. Every call fails with
    [UnboundLocalError] at that test and returns no result: a call that
    leaves [extract_func] at [None], and a call that passes a function as
    well; no extraction function is called. *)
Theorem process_raw_data_unbound_local
    (dataset_name metadata : pyobj) (extract_func : option extractor)
    (kwargs : gmap string pyobj) :
  returns (process_raw_data dataset_name metadata extract_func kwargs) =
    Err (UnboundLocalError "extract_function") ∧
  calls (process_raw_data dataset_name metadata extract_func kwargs) = [].
Proof.
  unfold returns, calls, process_raw_data.
  (* the first statement that can fail is the read of the unbound local *)
  assert (load_local (A := option extractor) "extract_function" None =
          raise (UnboundLocalError "extract_function")) as -> by reflexivity.
  unfold mbind, M_bind, raise. simpl. by split.
Qed.



(** ** Train, test and all *)

(** C8, counterexample. Both files parse, and ['train'] and ['test'] return
    their rows; ['all'] raises the [ValueError] of [np.vstack], because the
    two arrays differ in their number of columns. *)
Lemma all_fails_on_uneven_files :
  (dataset_data <$> returns (process_lvq_pak "/interim" uneven_fs "lvq-pak" PyNone "train")) =
    Ok (Some {| shape1 := 2;
                rows := [[Str "1.5"; Str "2.5"]; [Str "3.5"; Str "4.5"]] |}) ∧
  (dataset_data <$> returns (process_lvq_pak "/interim" uneven_fs "lvq-pak" PyNone "test")) =
    Ok (Some {| shape1 := 1; rows := [[Str "5.5"]] |}) ∧
  returns (process_lvq_pak "/interim" uneven_fs "lvq-pak" PyNone "all") = Err ValueError ∧
  ¬ all_returns_when_parts_do "/interim" uneven_fs "lvq-pak".
Proof.
  split; [reflexivity|]. split; [reflexivity|]. split; [reflexivity|].
  intros H.
  destruct (returns (process_lvq_pak "/interim" uneven_fs "lvq-pak" PyNone "train"))
    as [r1|] eqn:E1; [|by vm_compute in E1].
  destruct (returns (process_lvq_pak "/interim" uneven_fs "lvq-pak" PyNone "test"))
    as [r2|] eqn:E2; [|by vm_compute in E2].
  destruct (H r1 r2 E1 E2) as [r Hr]. by vm_compute in Hr.
Qed.

Lemma half_of_sum (n1 n2 : nat) :
  n1 ≤ n2 + 1 → n2 ≤ n1 + 1 →
  n1 ≤ (n1 + n2) / 2 + 1 ∧ (n1 + n2) / 2 ≤ n1 + 1.
Proof.
  intros ??. pose proof (Nat.div_mod_eq (n1 + n2) 2).
  pose proof (Nat.mod_upper_bound (n1 + n2) 2). lia.
Qed.

#[local] Arguments Nat.div : simpl never.

(** C8, amended. When both files parse and their rows have the same number
    of columns, ['all'] returns the rows of ['train'] followed by those of
    ['test'], and the targets of the one followed by those of the other. The
    number of rows of ['all'] is the sum of the two; when the two files
    differ by at most one row, ['train'] has half the rows of ['all'], give
    or take one. *)
Theorem all_is_train_then_test
    (interim_data_path : string) (fs : filesystem) (dataset_name : string)
    (metadata : pyobj) (r1 r2 : gmap string pyobj)
    (a1 a2 : ndarray) (t1 t2 : list value) :
  returns (process_lvq_pak interim_data_path fs dataset_name metadata "train") = Ok r1 →
  returns (process_lvq_pak interim_data_path fs dataset_name metadata "test") = Ok r2 →
  dataset_data r1 = Some a1 → dataset_target r1 = Some t1 →
  dataset_data r2 = Some a2 → dataset_target r2 = Some t2 →
  shape1 a1 = shape1 a2 →
  ∃ r a,
    returns (process_lvq_pak interim_data_path fs dataset_name metadata "all") = Ok r ∧
    dataset_data r = Some a ∧ dataset_target r = Some (t1 ++ t2) ∧
    shape1 a = shape1 a1 ∧ rows a = rows a1 ++ rows a2 ∧
    shape0 a = shape0 a1 + shape0 a2 ∧
    (shape0 a1 ≤ shape0 a2 + 1 → shape0 a2 ≤ shape0 a1 + 1 →
       shape0 a1 ≤ shape0 a / 2 + 1 ∧ shape0 a / 2 ≤ shape0 a1 + 1).
Proof.
  unfold returns. rewrite process_lvq_pak_train, process_lvq_pak_test,
    process_lvq_pak_all. simpl.
  destruct (read_space_delimited _ _ [0; 1] _ _) as [[[d1 u1] m1]|]; [|done].
  destruct (read_space_delimited _ _ [0] _ _) as [[[d2 u2] m2]|]; [|done].
  simpl. intros ?????? Hw. simplify_eq.
  rewrite dataset_of_data in *. rewrite dataset_of_target in *. simplify_eq/=.
  unfold np_vstack. rewrite decide_True by done. simpl.
  eexists _, _. split; [reflexivity|].
  rewrite dataset_of_data, dataset_of_target. simpl.
  split; [reflexivity|]. split; [reflexivity|]. split; [reflexivity|].
  split; [reflexivity|]. unfold shape0. cbn [rows]. rewrite length_app.
  split; [done|]. apply half_of_sum.
Qed.

Lemma all_is_train_then_test_witness :
  ∃ r a,
    returns (process_lvq_pak "/interim" sample_fs "lvq-pak" PyNone "all") = Ok r ∧
    dataset_data r = Some a ∧
    dataset_target r = Some ([Str "A"; Str "#"] ++ [Str "B"; Str "A"]) ∧
    shape0 a = 2 + 2.
Proof.
  destruct (all_is_train_then_test "/interim" sample_fs "lvq-pak" PyNone
              (dataset_of "lvq-pak"
                 ({| shape1 := 2;
                     rows := [[Str "1.5"; Str "2.5"]; [Str "3.5"; Str "4.5"]] |},
                  [Str "A"; Str "#"], PyDict ∅))
              (dataset_of "lvq-pak"
                 ({| shape1 := 2;
                     rows := [[Str "5.5"; Str "6.5"]; [Str "7.5"; Str "8.5"]] |},
                  [Str "B"; Str "A"], PyDict ∅))
              _ _ _ _ eq_refl eq_refl eq_refl eq_refl eq_refl eq_refl eq_refl)
    as (r & a & Hr & Ha & Ht & _ & _ & Hn & _).
  exists r, a. by split_and!.
Defined.

(** ** The keys of the dictionary *)



(** * More about the parser *)

(** ** The rows of the tokenizer have one length *)

Lemma foldM_inv {A S} (I : S → Prop) (f : S → A → result S) s l s' :
  (∀ s a s', I s → f s a = Ok s' → I s') →
  I s → foldM f s l = Ok s' → I s'.
Proof.
  intros Hf. revert s. induction l as [|a l IH]; intros s Hs H; simpl in H.
  - by simplify_eq.
  - destruct (f s a) as [s1|] eqn:E; simpl in H; [|done].
    apply (IH s1); [by eapply Hf|done].
Qed.

Lemma end_line_inv p p' :
  parser_inv p → in_skip_line (state p) = true ∨ line_fields p ≠ [] →
  end_line p = Ok p' →
  state p' = state p ∧ ∃ w, 0 < w ∧ rectangular w (lines p').
Proof.
  intros (_ & _ & w & Hw & Hrect) Hfields. unfold end_line.
  destruct (in_skip_line (state p)) eqn:Hskip.
  { intros ?. simplify_eq. simpl. eauto. }
  destruct Hfields as [?|Hne]; [done|].
  assert (0 < length (line_fields p)) as Hpos
    by (destruct (line_fields p); [done|simpl; lia]).
  destruct (lines p) as [|prev ls] eqn:Hlines.
  - intros ?. simplify_eq. simpl. split; [done|].
    exists (length (line_fields p)). split; [done|].
    constructor; [by rewrite length_rev|constructor].
  - case_bool_decide as Hlong; [done|]. intros ?. simplify_eq. simpl.
    split; [done|]. exists w. split; [done|].
    pose proof (Forall_inv Hrect) as Hprev. simpl in Hprev.
    constructor; [|done].
    rewrite length_app, length_rev, length_replicate. lia.
Qed.

Lemma parser_inv_same p q :
  parser_inv p → state q ≠ EAT_COMMENT → state q ≠ EAT_LINE_COMMENT →
  lines q = lines p → parser_inv q.
Proof. intros (_ & _ & Hw) ?? Hl. unfold parser_inv. by rewrite Hl. Qed.

Lemma END_LINE_inv p p' :
  parser_inv p → in_skip_line (state p) = true ∨ line_fields p ≠ [] →
  END_LINE p = Ok p' → parser_inv p'.
Proof.
  intros Hinv Hf. unfold END_LINE.
  destruct (end_line p) as [q|] eqn:E; [|done]. simpl. intros ?. simplify_eq.
  destruct (end_line_inv p q Hinv Hf E) as [_ Hw]. by split_and!.
Qed.

(** Solves the invariant for a parser that differs from one that has it in
    its state, its token or its fields only. *)
Ltac inv_same H :=
  simplify_eq; eapply parser_inv_same;
    [exact H|simpl; congruence|simpl; congruence|done].

Section Invariant.
Variable skiprows : list nat.
Let d := space_dialect skiprows.

Lemma tokenize_in_record_inv p c p' :
  parser_inv p → tokenize_in_record d p c = Ok p' → parser_inv p'.
Proof.
  intros Hinv H. pose proof Hinv as (Hc1 & Hc2 & _).
  unfold tokenize_in_record, IS_COMMENT_CHAR in H. simpl in H.
  destruct (state p) eqn:Hst; try done; try (by inv_same Hinv);
    repeat match type of H with
           | context [if ?b then _ else _] => destruct b
           end;
    try (by inv_same Hinv);
    (eapply END_LINE_inv; [|right|exact H]; [by inv_same Hinv|done]).
Qed.

Lemma tokenize_byte_inv p c p' :
  parser_inv p → tokenize_byte d p c = Ok p' → parser_inv p'.
Proof.
  intros Hinv H. pose proof Hinv as (Hc1 & Hc2 & _).
  unfold tokenize_byte, IS_COMMENT_CHAR in H. simpl in H.
  destruct (state p) eqn:Hst; try done;
    try (rewrite <- Hst in H; by eapply tokenize_in_record_inv);
    repeat match type of H with
           | context [if ?b then _ else _] => destruct b
           end;
    try (by inv_same Hinv);
    try (eapply tokenize_in_record_inv; [|exact H]; by inv_same Hinv);
    try (eapply (foldM_inv parser_inv); [apply tokenize_in_record_inv| |exact H];
         by inv_same Hinv);
    (eapply END_LINE_inv; [|left|exact H]; [by inv_same Hinv|by rewrite ?Hst]).
Qed.

Lemma parser_handle_eof_inv p p' :
  parser_inv p → parser_handle_eof p = Ok p' →
  ∃ w, 0 < w ∧ rectangular w (lines p').
Proof.
  intros Hinv H. pose proof Hinv as (Hc1 & Hc2 & Hw).
  unfold parser_handle_eof in H.
  destruct (state p) eqn:Hst; try done; try (by simplify_eq);
    try (eapply end_line_inv; [|right|exact H]; [by inv_same Hinv|done]);
    (eapply end_line_inv; [exact Hinv|left|exact H]; by rewrite Hst).
Qed.

(** The rows that the tokenizer returns have one length, which is not zero. *)
Lemma tokenize_all_rectangular text toks :
  tokenize_all d text = Ok toks → ∃ w, 0 < w ∧ rectangular w toks.
Proof.
  rewrite tokenize_all_unfold. intros H.
  destruct (foldM _ _ _) as [p|] eqn:E; simpl in H; [|done].
  destruct (parser_handle_eof p) as [p'|] eqn:E'; simpl in H; [|done].
  simplify_eq.
  assert (parser_inv p) as Hinv.
  { eapply (foldM_inv parser_inv); [apply tokenize_byte_inv| |exact E].
    split_and!; [done|done|]. exists 1. split; [lia|constructor]. }
  destruct (parser_handle_eof_inv p p' Hinv E') as (w & Hw & Hrect).
  exists w. split; [done|]. unfold rectangular in *.
  apply Forall_forall. intros r Hr. apply list_elem_of_In, in_rev in Hr.
  by apply (proj1 (Forall_forall _ _) Hrect), list_elem_of_In.
Qed.

End Invariant.

(** ** The frame that [read_csv] returns *)

(** The frame has a row, at least one column, and rows of one length. *)
Lemma read_csv_frame fd skiprows df :
  read_csv fd skiprows true None SPACE = Ok df →
  ∃ k, shape1 (values df) = S k ∧ rows (values df) ≠ [] ∧
       rectangular (S k) (rows (values df)).
Proof.
  unfold read_csv.
  change {| delimiter := SPACE; commentchar := None; skipset := skiprows;
            skip_empty_lines := true |} with (space_dialect skiprows).
  destruct (tokenize_all _ fd) as [toks|] eqn:E; simpl; [|done].
  apply tokenize_all_rectangular in E as (w & Hw & Hrect).
  destruct toks as [|first toks]; [done|]. intros ?. simplify_eq. simpl.
  pose proof (Forall_inv Hrect) as Hfirst. simpl in Hfirst.
  destruct w as [|k]; [lia|]. exists k. split; [done|]. split; [done|].
  unfold rectangular in *. apply Forall_forall. intros r Hr.
  apply list_elem_of_In, (in_map_iff (map convert_token) (first :: toks))
    in Hr as (r0 & <- & Hr0).
  rewrite length_map. apply (proj1 (Forall_forall _ _) Hrect).
  by apply list_elem_of_In.
Qed.

(** [read_space_delimited], with the empty column index ruled out. *)
Lemma read_space_delimited_frame fs filename skiprows class_labels metadata :
  read_space_delimited fs filename skiprows class_labels metadata =
    (fd ← open_read fs filename;
     df ← read_csv fd skiprows true None SPACE;
     let k := shape1 (values df) - 1 in
     Ok (if class_labels
         then ({| shape1 := k; rows := map (take k) (rows (values df)) |},
               map (λ r, nth k r NaN) (rows (values df)), metadata)
         else (values df, np_zeros (shape0 (values df)), metadata))).
Proof.
  unfold read_space_delimited.
  destruct (open_read fs filename) as [fd|]; simpl; [|done].
  destruct (read_csv fd skiprows true None SPACE) as [df|] eqn:E; simpl; [|done].
  destruct class_labels; [|done].
  apply read_csv_frame in E as (k & Hk & _). unfold columns. rewrite Hk.
  rewrite seq_reverse_head, seq_removelast. unfold loc_columns, loc_column.
  by rewrite length_seq, Nat.sub_succ, Nat.sub_0_r.
Qed.

Lemma take_nth_last {A} (k : nat) (r : list A) (dflt : A) :
  length r = S k → take k r ++ [nth k r dflt] = r.
Proof.
  revert k. induction r as [|x r IH]; intros k Hk; [done|].
  destruct k as [|k]; simpl in *.
  - by destruct r.
  - f_equal. apply IH. lia.
Qed.

Lemma with_last_column_split (k : nat) (rs : list (list value)) :
  rectangular (S k) rs →
  with_last_column (map (take k) rs) (map (λ r, nth k r NaN) rs) = rs.
Proof.
  unfold with_last_column. induction 1 as [|r rs Hr _ IH]; simpl; [done|].
  by rewrite take_nth_last, IH.
Qed.

Lemma rectangular_take {A} (k w : nat) (rs : list (list A)) :
  k ≤ w → rectangular w rs → rectangular k (map (take k) rs).
Proof.
  intros Hk. unfold rectangular. induction 1 as [|r rs Hr _ IH]; simpl;
    constructor; [|done].
  rewrite length_take. lia.
Qed.

(** * More properties of [read_space_delimited] *)

(** X1. When the handle has delivered the text of the file,
    [read_space_delimited] fails only in the reader of pandas: with
    [EmptyDataError] or with the tokenizer's [ParserError]. The [IndexError]
    of an empty column index cannot arise, whatever the file holds. An error
    of the handle itself, for a file that is not there or not text, is the
    error of the call. *)
Theorem read_space_delimited_errors
    (fs : filesystem) (filename : string) (skiprows : list nat)
    (class_labels : bool) (metadata : pyobj) :
  (∀ e, open_read fs filename = Err e →
        read_space_delimited fs filename skiprows class_labels metadata = Err e) ∧
  (∀ text e,
     open_read fs filename = Ok text →
     read_space_delimited fs filename skiprows class_labels metadata = Err e →
     e = EmptyDataError ∨ parser_error e).
Proof.
  rewrite read_space_delimited_frame. split.
  - by intros e ->.
  - intros text e ->. simpl. intros H.
    destruct (read_csv _ skiprows true None SPACE) as [df|e'] eqn:E;
      simpl in H; [done|]. simplify_eq.
    unfold read_csv in E.
    destruct (tokenize_all _ _) as [toks|e'] eqn:E'; simpl in E.
    + destruct toks; simplify_eq. by left.
    + simplify_eq. right. by apply tokenize_all_Err in E'.
Qed.

Lemma read_space_delimited_errors_witness :
  open_read train_only_fs "/interim/lvq-pak/lvq_pak-3.1/ex2.dat" =
    Err (FileNotFoundError "/interim/lvq-pak/lvq_pak-3.1/ex2.dat") ∧
  read_space_delimited train_only_fs "/interim/lvq-pak/lvq_pak-3.1/ex2.dat" [0] true PyNone =
    Err (FileNotFoundError "/interim/lvq-pak/lvq_pak-3.1/ex2.dat").
Proof.
  assert (open_read train_only_fs "/interim/lvq-pak/lvq_pak-3.1/ex2.dat" =
            Err (FileNotFoundError "/interim/lvq-pak/lvq_pak-3.1/ex2.dat")) as H
    by reflexivity.
  split; [exact H|].
  exact (proj1 (read_space_delimited_errors train_only_fs
                  "/interim/lvq-pak/lvq_pak-3.1/ex2.dat" [0] true PyNone) _ H).
Defined.

(** X2. What [read_space_delimited] returns is never empty and never
    ragged, whatever the file holds: [data] has a row, every row of [data]
    has [data.shape[1]] entries, [target] has an entry for every row, and
    with [class_labels=False] there is at least one column. *)
Theorem parsed_arrays_are_rectangular
    (fs : filesystem) (filename : string) (skiprows : list nat)
    (class_labels : bool) (metadata metadata' : pyobj)
    (data : ndarray) (target : list value) :
  read_space_delimited fs filename skiprows class_labels metadata =
    Ok (data, target, metadata') →
  0 < shape0 data ∧ rectangular (shape1 data) (rows data) ∧
  length target = shape0 data ∧ (class_labels = false → 0 < shape1 data).
Proof.
  rewrite read_space_delimited_frame.
  destruct (open_read fs filename) as [fd|]; simpl; [|done].
  destruct (read_csv fd skiprows true None SPACE) as [df|] eqn:E; simpl; [|done].
  apply read_csv_frame in E as (k & Hk & Hne & Hrect).
  assert (0 < length (rows (values df))) as Hpos
    by (destruct (rows (values df)); [done|simpl; lia]).
  rewrite Hk, Nat.sub_succ, Nat.sub_0_r. unfold shape0, np_zeros.
  destruct class_labels; intros ?; simplify_eq; simpl.
  - rewrite !length_map. split; [done|]. split; [|done].
    apply (rectangular_take k (S k)); [lia|done].
  - rewrite length_replicate, Hk. split; [done|]. split; [done|].
    split; [done|]. intros _. lia.
Qed.

Lemma parsed_arrays_are_rectangular_witness :
  let data := {| shape1 := 2;
                 rows := [[Str "1.5"; Str "2.5"]; [Str "3.5"; Str "4.5"]] |} in
  read_space_delimited sample_fs "/interim/lvq-pak/lvq_pak-3.1/ex1.dat" [0; 1] true PyNone =
    Ok (data, [Str "A"; Str "#"], PyNone) ∧
  rectangular (shape1 data) (rows data).
Proof.
  intros data.
  assert (read_space_delimited sample_fs "/interim/lvq-pak/lvq_pak-3.1/ex1.dat"
            [0; 1] true PyNone = Ok (data, [Str "A"; Str "#"], PyNone)) as H
    by reflexivity.
  split; [exact H|].
  exact (proj1 (proj2 (parsed_arrays_are_rectangular _ _ _ _ _ _ _ _ H))).
Defined.

(** X3. [class_labels] decides how the frame is cut, not whether the file
    parses. When the call with [class_labels=False] returns the whole frame,
    the call with [class_labels=True] returns, with the same metadata, the
    frame cut in two: every row of the whole frame is the row of [data] with
    the entry of [target] at its end. When the one call fails, the other
    fails with the same error. *)
Theorem labels_split_the_frame
    (fs : filesystem) (filename : string) (skiprows : list nat) (metadata : pyobj) :
  (∀ full zeros metadata',
     read_space_delimited fs filename skiprows false metadata =
       Ok (full, zeros, metadata') →
     ∃ data target,
       read_space_delimited fs filename skiprows true metadata =
         Ok (data, target, metadata') ∧
       shape1 full = S (shape1 data) ∧
       rows full = with_last_column (rows data) target) ∧
  (∀ e, read_space_delimited fs filename skiprows false metadata = Err e ↔
        read_space_delimited fs filename skiprows true metadata = Err e).
Proof.
  rewrite !read_space_delimited_frame.
  destruct (open_read fs filename) as [fd|]; simpl; [|done].
  destruct (read_csv fd skiprows true None SPACE) as [df|] eqn:E; simpl; [|done].
  apply read_csv_frame in E as (k & Hk & Hne & Hrect).
  rewrite Hk, Nat.sub_succ, Nat.sub_0_r. split; [|done].
  intros full zeros metadata' ?. simplify_eq. eexists _, _.
  split; [reflexivity|]. simpl. split; [done|].
  by rewrite with_last_column_split.
Qed.

Lemma labels_split_the_frame_witness :
  let full := {| shape1 := 3;
                 rows := [[Str "5.5"; Str "6.5"; Str "B"];
                          [Str "7.5"; Str "8.5"; Str "A"]] |} in
  read_space_delimited sample_fs "/interim/lvq-pak/lvq_pak-3.1/ex2.dat" [0] false PyNone =
    Ok (full, [Zero; Zero], PyNone) ∧
  ∃ data target,
    read_space_delimited sample_fs "/interim/lvq-pak/lvq_pak-3.1/ex2.dat" [0] true PyNone =
      Ok (data, target, PyNone) ∧
    shape1 full = S (shape1 data) ∧
    rows full = with_last_column (rows data) target.
Proof.
  intros full.
  assert (read_space_delimited sample_fs "/interim/lvq-pak/lvq_pak-3.1/ex2.dat"
            [0] false PyNone = Ok (full, [Zero; Zero], PyNone)) as H by reflexivity.
  split; [exact H|].
  exact (proj1 (labels_split_the_frame sample_fs
                  "/interim/lvq-pak/lvq_pak-3.1/ex2.dat" [0] PyNone) _ _ _ H).
Defined.

(** ** [skiprows] as a set of line numbers *)

Lemma foldM_ext {A S} (f g : S → A → result S) s l :
  (∀ s a, f s a = g s a) → foldM f s l = foldM g s l.
Proof.
  intros Hfg. revert s. induction l as [|a l IH]; intros s; simpl; [done|].
  rewrite Hfg. destruct (g s a); simpl; [apply IH|done].
Qed.

Lemma tokenize_byte_same_skipset (skiprows1 skiprows2 : list nat) p c :
  (∀ n, n ∈ skiprows1 ↔ n ∈ skiprows2) →
  tokenize_byte (space_dialect skiprows1) p c =
  tokenize_byte (space_dialect skiprows2) p c.
Proof.
  intros Hsame. unfold tokenize_byte, skip_this. cbn [skipset space_dialect].
  by rewrite (bool_decide_ext _ _ (Hsame (file_lines p))).
Qed.

(** X4. [skiprows] counts as a set: two lists that hold the same line
    numbers, in whatever order and however often, give the same result on
    every file. *)
Theorem skiprows_is_a_set
    (fs : filesystem) (filename : string) (skiprows1 skiprows2 : list nat)
    (class_labels : bool) (metadata : pyobj) :
  (∀ n, n ∈ skiprows1 ↔ n ∈ skiprows2) →
  read_space_delimited fs filename skiprows1 class_labels metadata =
  read_space_delimited fs filename skiprows2 class_labels metadata.
Proof.
  intros Hsame. unfold read_space_delimited.
  destruct (open_read fs filename) as [fd|]; simpl; [|done].
  assert (read_csv fd skiprows1 true None SPACE =
          read_csv fd skiprows2 true None SPACE) as ->; [|done].
  unfold read_csv.
  change {| delimiter := SPACE; commentchar := None; skipset := skiprows1;
            skip_empty_lines := true |} with (space_dialect skiprows1).
  change {| delimiter := SPACE; commentchar := None; skipset := skiprows2;
            skip_empty_lines := true |} with (space_dialect skiprows2).
  rewrite !tokenize_all_unfold.
  rewrite (foldM_ext _ (tokenize_byte (space_dialect skiprows2))); [done|].
  intros p c. by apply tokenize_byte_same_skipset.
Qed.

Lemma skiprows_is_a_set_witness :
  (∀ n, n ∈ [0; 1] ↔ n ∈ [1; 0; 1]) ∧
  read_space_delimited sample_fs "/interim/lvq-pak/lvq_pak-3.1/ex1.dat" [0; 1] true PyNone =
  read_space_delimited sample_fs "/interim/lvq-pak/lvq_pak-3.1/ex1.dat" [1; 0; 1] true PyNone.
Proof.
  assert (∀ n, n ∈ [0; 1] ↔ n ∈ [1; 0; 1]) as H
    by (intros n; rewrite !elem_of_cons, !elem_of_nil; tauto).
  split; [exact H|].
  exact (skiprows_is_a_set sample_fs "/interim/lvq-pak/lvq_pak-3.1/ex1.dat"
           [0; 1] [1; 0; 1] true PyNone H).
Defined.

(** ** Files without data, and the last line feed *)

(** X5. On a file without quote characters, [read_space_delimited] fails
    with [EmptyDataError] exactly when the file has no data line: when it is
    empty, or when each of its lines is skipped by its number, is empty or
    holds tabs only (a byte order mark at the start of the file counts for
    nothing). *)
Theorem no_data_lines_is_empty_data
    (fs : filesystem) (filename : string) (skiprows : list nat)
    (class_labels : bool) (metadata : pyobj) (text : list ascii) :
  open_read fs filename = Ok text → quote_free text →
  (read_space_delimited fs filename skiprows class_labels metadata =
     Err EmptyDataError ↔ data_lines skiprows text = []).
Proof.
  intros Hopen Hq.
  rewrite (read_space_delimited_by_lines _ _ _ _ _ text) by done.
  unfold read_space_delimited_lines.
  destruct (data_lines skiprows text) as [|l ls]; simpl map; [done|].
  cbv beta iota zeta. by destruct (List.find _ (map fields ls)).
Qed.

Lemma no_data_lines_is_empty_data_witness :
  open_read header_only_fs "empty.dat" = Ok header_only_text ∧
  quote_free header_only_text ∧
  data_lines [0; 1] header_only_text = [] ∧
  read_space_delimited header_only_fs "empty.dat" [0; 1] true PyNone =
    Err EmptyDataError.
Proof.
  assert (open_read header_only_fs "empty.dat" = Ok header_only_text) as H1
    by reflexivity.
  assert (quote_free header_only_text) as H2 by (unfold quote_free; by_computation).
  assert (data_lines [0; 1] header_only_text = []) as H3 by reflexivity.
  split; [exact H1|]. split; [exact H2|]. split; [exact H3|].
  exact (proj2 (no_data_lines_is_empty_data header_only_fs "empty.dat" [0; 1]
                  true PyNone header_only_text H1 H2) H3).
Defined.

Lemma data_lines_final_newline (skiprows : list nat) (text : list ascii) :
  data_lines skiprows (text ++ [LF]) = data_lines skiprows text.
Proof.
  unfold data_lines. rewrite CHECK_FOR_BOM_snoc_LF.
  by rewrite <- !kept_from_text_lines, split_on_snoc_sep, kept_from_snoc_empty.
Qed.

(** X6. A line feed at the end of the file makes no difference: a file
    without quote characters gives the same result with it and without it. *)
Theorem final_newline_is_optional
    (fs1 fs2 : filesystem) (filename : string) (skiprows : list nat)
    (class_labels : bool) (metadata : pyobj) (text : list ascii) :
  open_read fs1 filename = Ok text →
  open_read fs2 filename = Ok (text ++ [LF]) →
  quote_free text →
  read_space_delimited fs1 filename skiprows class_labels metadata =
  read_space_delimited fs2 filename skiprows class_labels metadata.
Proof.
  intros H1 H2 Hq.
  rewrite (read_space_delimited_by_lines fs1 _ _ _ _ text) by done.
  rewrite (read_space_delimited_by_lines fs2 _ _ _ _ (text ++ [LF]))
    by (try done; unfold quote_free in *; notin).
  unfold read_space_delimited_lines. by rewrite data_lines_final_newline.
Qed.

Lemma final_newline_is_optional_witness :
  open_read unclosed_fs "rows.dat" = Ok unclosed_text ∧
  open_read closed_fs "rows.dat" = Ok (unclosed_text ++ [LF]) ∧
  quote_free unclosed_text ∧
  read_space_delimited unclosed_fs "rows.dat" [] true PyNone =
  read_space_delimited closed_fs "rows.dat" [] true PyNone.
Proof.
  assert (open_read unclosed_fs "rows.dat" = Ok unclosed_text) as H1 by reflexivity.
  assert (open_read closed_fs "rows.dat" = Ok (unclosed_text ++ [LF])) as H2
    by reflexivity.
  assert (quote_free unclosed_text) as H3 by (unfold quote_free; by_computation).
  split; [exact H1|]. split; [exact H2|]. split; [exact H3|].
  exact (final_newline_is_optional unclosed_fs closed_fs "rows.dat" [] true PyNone
           unclosed_text H1 H2 H3).
Defined.

(** ** Line endings *)

Lemma universal_newlines_id (text : list ascii) :
  CR ∉ text → universal_newlines text = text.
Proof.
  induction text as [|c text IH]; intros H; simpl; [done|].
  apply not_elem_of_cons in H as [Hc H].
  rewrite (bool_decide_eq_false_2 (c = CR)) by done. by rewrite IH.
Qed.

Lemma universal_newlines_to_crlf (text : list ascii) :
  CR ∉ text → universal_newlines (to_crlf text) = text.
Proof.
  induction text as [|c text IH]; intros H; simpl; [done|].
  apply not_elem_of_cons in H as [Hc H].
  case_bool_decide as Hlf; simpl.
  - subst c. by rewrite IH.
  - rewrite (bool_decide_eq_false_2 (c = CR)) by done. by rewrite IH.
Qed.

(** What the handle delivers holds no carriage return. *)
Lemma universal_newlines_no_CR (raw : list ascii) : CR ∉ universal_newlines raw.
Proof.
  assert (∀ n raw, length raw ≤ n → CR ∉ universal_newlines raw) as Hn.
  { clear raw. induction n as [|n IH]; intros raw Hlen.
    { destruct raw; [apply not_elem_of_nil|simpl in Hlen; lia]. }
    destruct raw as [|c rest]; [apply not_elem_of_nil|]. simpl in *.
    case_bool_decide as Hc.
    - destruct rest as [|c' rest']; [by notin|]. simpl in Hlen.
      case_bool_decide; (apply not_elem_of_cons; split; [done|]);
        apply IH; simpl; lia.
    - apply not_elem_of_cons. split; [done|]. apply IH. lia. }
  by apply (Hn (length raw)).
Qed.

(** Carriage returns and line feeds are characters of one byte. *)
Lemma utf8_valid_to_crlf (s : utf8_state) (text : list ascii) :
  utf8_valid_from s (to_crlf text) = utf8_valid_from s text.
Proof.
  revert s. induction text as [|c text IH]; intros s; simpl; [done|].
  case_bool_decide as Hc; simpl; [|apply IH].
  subst c. rewrite IH. by destruct s.
Qed.

(** X7. The line endings of the file do not matter. The text-mode handle
    hands the tokenizer a text without carriage returns, and a file written
    with the line endings of Windows gives the same result as the same file
    written with line feeds alone, whatever it holds. *)
Theorem line_endings_do_not_matter :
  (∀ (fs : filesystem) (filename : string) (text : list ascii),
     open_read fs filename = Ok text → CR ∉ text) ∧
  (∀ (fs1 fs2 : filesystem) (filename : string) (skiprows : list nat)
     (class_labels : bool) (metadata : pyobj) (text : list ascii),
     CR ∉ text →
     fs1 !! filename = Some (RegularFile (string_of_list_ascii text)) →
     fs2 !! filename = Some (RegularFile (string_of_list_ascii (to_crlf text))) →
     read_space_delimited fs1 filename skiprows class_labels metadata =
     read_space_delimited fs2 filename skiprows class_labels metadata).
Proof.
  split.
  - intros fs filename text. unfold open_read.
    case_bool_decide; [done|].
    destruct (fs !! filename) as [[raw|why]|]; [|done..].
    destruct (utf8_valid _); [|done]. intros ?. simplify_eq.
    apply universal_newlines_no_CR.
  - intros fs1 fs2 filename skiprows class_labels metadata text Hcr H1 H2.
    unfold read_space_delimited, open_read. rewrite H1, H2.
    rewrite !list_ascii_of_string_of_list_ascii.
    unfold utf8_valid. rewrite utf8_valid_to_crlf.
    by rewrite universal_newlines_id, universal_newlines_to_crlf.
Qed.

Lemma line_endings_do_not_matter_witness :
  let filename := "/interim/lvq-pak/lvq_pak-3.1/ex1.dat" in
  (CR ∉ ex1_text) ∧
  sample_fs !! filename = Some (RegularFile (string_of_list_ascii ex1_text)) ∧
  ex1_crlf_fs !! filename =
    Some (RegularFile (string_of_list_ascii (to_crlf ex1_text))) ∧
  read_space_delimited sample_fs filename [0; 1] true PyNone =
  read_space_delimited ex1_crlf_fs filename [0; 1] true PyNone.
Proof.
  intros filename.
  assert (CR ∉ ex1_text) as H0 by by_computation.
  assert (sample_fs !! filename = Some (RegularFile (string_of_list_ascii ex1_text)))
    as H1 by reflexivity.
  assert (ex1_crlf_fs !! filename =
            Some (RegularFile (string_of_list_ascii (to_crlf ex1_text))))
    as H2 by reflexivity.
  split; [exact H0|]. split; [exact H1|]. split; [exact H2|].
  exact (proj2 line_endings_do_not_matter sample_fs ex1_crlf_fs filename [0; 1]
           true PyNone ex1_text H0 H1 H2).
Defined.

(** ** Every entry of the frame *)

Lemma frame_row_cell (w : nat) (r : row) (j : nat) :
  length r ≤ w → j < w →
  frame_row w r !! j =
    Some (match r !! j with Some t => convert_token t | None => NaN end).
Proof.
  intros Hlen Hj. unfold frame_row, pad_row. rewrite lookup_map.
  destruct (r !! j) as [t|] eqn:E.
  - by rewrite lookup_app_l, E by (by eapply lookup_lt_Some).
  - apply lookup_ge_None in E.
    rewrite lookup_app_r by done.
    by rewrite lookup_replicate_2 by lia.
Qed.



(** ** Writing a table and reading it *)

Lemma join_head sep t ts : ∃ rest, join sep (t :: ts) = t ++ rest.
Proof.
  destruct ts as [|t' ts]; simpl.
  - exists []. by rewrite app_nil_r.
  - by eexists.
Qed.

Lemma notin_join (c sep : ascii) (ts : list (list ascii)) :
  c ≠ sep → Forall (λ t, c ∉ t) ts → c ∉ join sep ts.
Proof.
  intros Hc. induction 1 as [|t ts Ht Hts IH]; [apply not_elem_of_nil|].
  destruct ts as [|t' ts]; [done|].
  change (join sep (t :: t' :: ts)) with (t ++ sep :: join sep (t' :: ts)).
  notin.
Qed.

Lemma split_join (sep : ascii) (ts : list (list ascii)) :
  ts ≠ [] → Forall (λ t, sep ∉ t) ts → split_on sep (join sep ts) = ts.
Proof.
  intros Hne. induction 1 as [|t ts Ht Hts IH]; [done|].
  destruct ts as [|t' ts].
  - simpl. by apply split_on_no_sep.
  - change (join sep (t :: t' :: ts)) with (t ++ sep :: join sep (t' :: ts)).
    rewrite split_on_app by done. by rewrite IH.
Qed.

Lemma split_render (table : list row) :
  Forall (λ r, LF ∉ join SPACE r) table →
  split_on LF (render table) = map (join SPACE) table ++ [[]].
Proof.
  unfold render. induction 1 as [|r table Hr _ IH]; simpl; [done|].
  rewrite <- app_assoc. simpl. rewrite split_on_app by done. by rewrite IH.
Qed.

Lemma kept_from_all (n : nat) (ls : list (list ascii)) :
  Forall (λ l, blank_line l = false) ls → kept_from [] n ls = ls.
Proof.
  intros H. revert n. induction H as [|l ls Hl _ IH]; intros n; simpl; [done|].
  by rewrite Hl, IH.
Qed.

Lemma writable_nonempty (t : token) : writable t → ∃ c t', t = c :: t' ∧ c ≠ TAB.
Proof.
  intros (_ & Htab & _ & _ & Hplain). destruct t as [|c t']; [done|].
  exists c, t'. split; [done|]. intros ->. apply Htab. by left.
Qed.

Section RoundTrip.
Variable w : nat.
Variable table : list row.
Hypothesis table_ok : writable_table w table.
Hypothesis no_mark : CHECK_FOR_BOM (render table) = render table.

Lemma writable_rows :
  Forall (λ r, r ≠ [] ∧ Forall (λ t, SPACE ∉ t) r ∧ (LF ∉ join SPACE r) ∧
               (QUOTE ∉ join SPACE r) ∧ blank_line (join SPACE r) = false) table.
Proof.
  destruct table_ok as (Hw & _ & Hall).
  eapply Forall_impl; [exact Hall|]. intros r [Hlen Hr]. simpl.
  assert (r ≠ []) as Hne by (intros ->; simpl in Hlen; lia).
  split; [done|]. split; [|split; [|split]].
  - eapply Forall_impl; [exact Hr|]. by intros t (? & _).
  - apply notin_join; [done|]. eapply Forall_impl; [exact Hr|].
    by intros t (_ & _ & ? & _).
  - apply notin_join; [done|]. eapply Forall_impl; [exact Hr|].
    by intros t (_ & _ & _ & ? & _).
  - destruct r as [|t r']; [done|].
    destruct (writable_nonempty t (Forall_inv Hr)) as (c & t' & -> & Hc).
    destruct (join_head SPACE (c :: t') r') as [rest ->]. simpl.
    by rewrite (bool_decide_eq_false_2 (c = TAB)).
Qed.

Lemma render_data_lines : data_lines [] (render table) = map (join SPACE) table.
Proof.
  pose proof writable_rows as Hrows.
  unfold data_lines. rewrite no_mark, <- kept_from_text_lines, split_render.
  2:{ eapply Forall_impl; [exact Hrows|]. by intros r (_ & _ & ? & _). }
  rewrite kept_from_snoc_empty. apply kept_from_all.
  apply Forall_fmap. eapply Forall_impl; [exact Hrows|].
  by intros r (_ & _ & _ & _ & ?).
Qed.

Lemma render_fields : map fields (map (join SPACE) table) = table.
Proof.
  pose proof writable_rows as Hrows. rewrite map_map.
  rewrite <- (map_id table) at 2. apply map_ext_in. intros r Hin.
  apply list_elem_of_In in Hin.
  destruct (proj1 (Forall_forall _ _) Hrows r Hin) as (Hne & Hsp & _).
  unfold fields. by rewrite split_join.
Qed.

Lemma render_quote_free : quote_free (render table).
Proof.
  pose proof writable_rows as Hrows. unfold quote_free, render.
  intros Hin. apply list_elem_of_In, in_concat in Hin.
  destruct Hin as (l & Hl & Hin). apply in_map_iff in Hl.
  destruct Hl as (r & <- & Hr). apply list_elem_of_In in Hr, Hin.
  destruct (proj1 (Forall_forall _ _) Hrows r Hr) as (_ & _ & _ & Hq & _).
  apply elem_of_app in Hin. destruct Hin as [Hin|Hin]; [done|].
  by apply list_elem_of_singleton in Hin.
Qed.

Lemma render_frame_rows : map (frame_row w) table = map (map str) table.
Proof.
  destruct table_ok as (_ & _ & Hall).
  apply map_ext_in. intros r Hin. apply list_elem_of_In in Hin.
  destruct (proj1 (Forall_forall _ _) Hall r Hin) as [Hlen Hr].
  apply frame_row_plain; [done|].
  eapply Forall_impl; [exact Hr|]. by intros t (_ & _ & _ & _ & ?).
Qed.

Lemma render_lengths :
  Forall (λ l, length (fields l) = w) (map (join SPACE) table).
Proof.
  pose proof writable_rows as Hrows. destruct table_ok as (_ & _ & Hall).
  apply Forall_fmap, Forall_forall. intros r Hin. simpl.
  destruct (proj1 (Forall_forall _ _) Hrows r Hin) as (Hne & Hsp & _).
  destruct (proj1 (Forall_forall _ _) Hall r Hin) as [Hlen _].
  unfold fields. by rewrite split_join.
Qed.

End RoundTrip.



(** * More about [process_lvq_pak] *)

Lemma read_space_delimited_missing (fs : filesystem) (filename : string)
    (skiprows : list nat) (class_labels : bool) (metadata : pyobj) :
  NUL ∉ list_ascii_of_string filename → fs !! filename = None →
  read_space_delimited fs filename skiprows class_labels metadata =
    Err (FileNotFoundError filename).
Proof.
  intros Hnul H. unfold read_space_delimited, open_read.
  by rewrite bool_decide_eq_false_2, H.
Qed.

Lemma joinpath_absolute (p : PurePath) (q : string) :
  path_root q ≠ "" → p </> q = Path q.
Proof. intros H. unfold joinpath. by rewrite bool_decide_eq_false_2. Qed.

(** X10. With ['all'], the first failure is the failure of the call. When
    ['train'] fails, ['all'] fails with the same error and the test file is
    not read: one call of [read_space_delimited] is made. When ['train']
    returns and ['test'] fails, ['all'] fails with the error of ['test'].
    When both return and their rows differ in length, ['all'] fails with the
    [ValueError] of [np.vstack]. So ['all'] returns only if both do. *)
Theorem all_fails_as_its_parts_fail
    (interim_data_path : string) (fs : filesystem) (dataset_name : string)
    (metadata : pyobj) :
  (∀ e,
     returns (process_lvq_pak interim_data_path fs dataset_name metadata "train") = Err e →
     returns (process_lvq_pak interim_data_path fs dataset_name metadata "all") = Err e ∧
     calls (process_lvq_pak interim_data_path fs dataset_name metadata "all") =
       [read_call (metadata_or_empty metadata)]) ∧
  (∀ r1 e,
     returns (process_lvq_pak interim_data_path fs dataset_name metadata "train") = Ok r1 →
     returns (process_lvq_pak interim_data_path fs dataset_name metadata "test") = Err e →
     returns (process_lvq_pak interim_data_path fs dataset_name metadata "all") = Err e) ∧
  (∀ r1 r2 a1 a2,
     returns (process_lvq_pak interim_data_path fs dataset_name metadata "train") = Ok r1 →
     returns (process_lvq_pak interim_data_path fs dataset_name metadata "test") = Ok r2 →
     dataset_data r1 = Some a1 → dataset_data r2 = Some a2 →
     shape1 a1 ≠ shape1 a2 →
     returns (process_lvq_pak interim_data_path fs dataset_name metadata "all") =
       Err ValueError) ∧
  (∀ r,
     returns (process_lvq_pak interim_data_path fs dataset_name metadata "all") = Ok r →
     ∃ r1 r2,
       returns (process_lvq_pak interim_data_path fs dataset_name metadata "train") = Ok r1 ∧
       returns (process_lvq_pak interim_data_path fs dataset_name metadata "test") = Ok r2).
Proof.
  unfold returns, calls.
  rewrite process_lvq_pak_train, process_lvq_pak_test, process_lvq_pak_all. simpl.
  destruct (read_space_delimited _ _ [0; 1] _ _) as [[[d1 u1] m1]|e1]; simpl.
  - destruct (read_space_delimited _ _ [0] _ _) as [[[d2 u2] m2]|e2]; simpl.
    + split; [done|]. split; [done|]. split.
      * intros r1 r2 a1 a2 ???? Hw. simplify_eq.
        rewrite dataset_of_data in *. simplify_eq/=.
        unfold np_vstack. by rewrite decide_False.
      * intros r _. eauto.
    + split; [done|]. split; [by intros ?? _ ?; simplify_eq|]. by split.
  - split; [by intros ? ?; simplify_eq|]. by split.
Qed.

Lemma all_fails_as_its_parts_fail_witness :
  returns (process_lvq_pak "/interim" train_only_fs "lvq-pak" PyNone "test") =
    Err (FileNotFoundError "/interim/lvq-pak/lvq_pak-3.1/ex2.dat") ∧
  returns (process_lvq_pak "/interim" train_only_fs "lvq-pak" PyNone "all") =
    Err (FileNotFoundError "/interim/lvq-pak/lvq_pak-3.1/ex2.dat").
Proof.
  assert (returns (process_lvq_pak "/interim" train_only_fs "lvq-pak" PyNone "test") =
            Err (FileNotFoundError "/interim/lvq-pak/lvq_pak-3.1/ex2.dat")) as H2
    by reflexivity.
  destruct (returns (process_lvq_pak "/interim" train_only_fs "lvq-pak" PyNone "train"))
    as [r1|] eqn:H1; [|by vm_compute in H1].
  split; [exact H2|].
  exact (proj1 (proj2 (all_fails_as_its_parts_fail "/interim" train_only_fs
                         "lvq-pak" PyNone)) r1 _ H1 H2).
Defined.

(** X11. An absolute [dataset_name] takes the place of
    [interim_data_path]: the path that [pathlib] makes of the two is the
    name alone, so the files are looked for under
    [dataset_name/lvq_pak-3.1], and the call does the same whatever
    [interim_data_path] is. *)
Theorem absolute_name_replaces_interim_path
    (interim_data_path other_path : string) (fs : filesystem)
    (dataset_name : string) (metadata : pyobj) (kind : string) :
  path_root dataset_name ≠ "" →
  lvq_file interim_data_path dataset_name "ex1.dat" =
    fspath (Path dataset_name </> "lvq_pak-3.1" </> "ex1.dat") ∧
  lvq_file interim_data_path dataset_name "ex2.dat" =
    fspath (Path dataset_name </> "lvq_pak-3.1" </> "ex2.dat") ∧
  process_lvq_pak interim_data_path fs dataset_name metadata kind =
  process_lvq_pak other_path fs dataset_name metadata kind.
Proof.
  intros Habs. unfold lvq_file, process_lvq_pak.
  by rewrite !(joinpath_absolute _ dataset_name).
Qed.

Lemma absolute_name_replaces_interim_path_witness :
  path_root "/interim/lvq-pak" ≠ "" ∧
  lvq_file "/elsewhere" "/interim/lvq-pak" "ex1.dat" =
    "/interim/lvq-pak/lvq_pak-3.1/ex1.dat" ∧
  returns (process_lvq_pak "/elsewhere" sample_fs "/interim/lvq-pak" PyNone "train") =
  returns (process_lvq_pak "/interim" sample_fs "/interim/lvq-pak" PyNone "train").
Proof.
  assert (path_root "/interim/lvq-pak" ≠ "") as H by done.
  split; [exact H|]. split; [reflexivity|].
  exact (f_equal returns
           (proj2 (proj2 (absolute_name_replaces_interim_path "/elsewhere" "/interim"
                            sample_fs "/interim/lvq-pak" PyNone "train" H)))).
Defined.

(** X12. A file that is not there is reported by its path, the path that
    [pathlib] makes of [interim_data_path], [dataset_name], [lvq_pak-3.1]
    and the name of the file: without [ex1.dat], ['train'] and ['all'] fail
    with [FileNotFoundError] for that path; without [ex2.dat], ['test']
    fails with it for the path of [ex2.dat], and so does ['all'] when the
    training file can be read. (A path with a null character is refused
    before the file is looked for.) *)
Theorem missing_file_is_named
    (interim_data_path : string) (fs : filesystem) (dataset_name : string)
    (metadata : pyobj) :
  (NUL ∉ list_ascii_of_string (lvq_file interim_data_path dataset_name "ex1.dat") →
   fs !! lvq_file interim_data_path dataset_name "ex1.dat" = None →
     returns (process_lvq_pak interim_data_path fs dataset_name metadata "train") =
       Err (FileNotFoundError (lvq_file interim_data_path dataset_name "ex1.dat")) ∧
     returns (process_lvq_pak interim_data_path fs dataset_name metadata "all") =
       Err (FileNotFoundError (lvq_file interim_data_path dataset_name "ex1.dat"))) ∧
  (NUL ∉ list_ascii_of_string (lvq_file interim_data_path dataset_name "ex2.dat") →
   fs !! lvq_file interim_data_path dataset_name "ex2.dat" = None →
     returns (process_lvq_pak interim_data_path fs dataset_name metadata "test") =
       Err (FileNotFoundError (lvq_file interim_data_path dataset_name "ex2.dat")) ∧
     ∀ r1,
       returns (process_lvq_pak interim_data_path fs dataset_name metadata "train") = Ok r1 →
       returns (process_lvq_pak interim_data_path fs dataset_name metadata "all") =
         Err (FileNotFoundError (lvq_file interim_data_path dataset_name "ex2.dat"))).
Proof.
  unfold returns.
  rewrite process_lvq_pak_train, process_lvq_pak_test, process_lvq_pak_all.
  split; intros Hnul H.
  - by rewrite (read_space_delimited_missing fs _ [0; 1]).
  - rewrite (read_space_delimited_missing fs _ [0]) by done. split; [done|].
    intros r1. simpl.
    by destruct (read_space_delimited fs _ [0; 1] _ _) as [[[??]?]|].
Qed.

Lemma missing_file_is_named_witness :
  lvq_file "/interim" "lvq-pak" "ex2.dat" = "/interim/lvq-pak/lvq_pak-3.1/ex2.dat" ∧
  (NUL ∉ list_ascii_of_string (lvq_file "/interim" "lvq-pak" "ex2.dat")) ∧
  train_only_fs !! lvq_file "/interim" "lvq-pak" "ex2.dat" = None ∧
  returns (process_lvq_pak "/interim" train_only_fs "lvq-pak" PyNone "test") =
    Err (FileNotFoundError "/interim/lvq-pak/lvq_pak-3.1/ex2.dat").
Proof.
  assert (NUL ∉ list_ascii_of_string (lvq_file "/interim" "lvq-pak" "ex2.dat")) as H0
    by by_computation.
  assert (train_only_fs !! lvq_file "/interim" "lvq-pak" "ex2.dat" = None) as H
    by reflexivity.
  split; [reflexivity|]. split; [exact H0|]. split; [exact H|].
  exact (proj1 (proj2 (missing_file_is_named "/interim" train_only_fs "lvq-pak"
                         PyNone) H0 H)).
Defined.

(** X13. The dictionary that [process_lvq_pak] returns names its source:
    under ['dataset_name'] there is the name that was passed, and under
    ['metadata'] the metadata that was passed, unchanged by the reading, or
    an empty dictionary when [None] was passed. *)
Theorem dataset_keeps_name_and_metadata
    (interim_data_path : string) (fs : filesystem) (dataset_name : string)
    (metadata : pyobj) (kind : string) (r : gmap string pyobj) :
  returns (process_lvq_pak interim_data_path fs dataset_name metadata kind) = Ok r →
  r !! "dataset_name" = Some (PyStr dataset_name) ∧
  r !! "metadata" = Some (metadata_or_empty metadata) ∧
  (metadata = PyNone → r !! "metadata" = Some (PyDict ∅)).
Proof.
  unfold returns. intros H.
  assert (∃ x, r = dataset_of dataset_name x ∧ x.2 = metadata_or_empty metadata)
    as (x & -> & Hx).
  { destruct (decide (kind ∈ supported_kinds)) as [Hk|Hk].
    2:{ by rewrite process_lvq_pak_unknown in H. }
    unfold supported_kinds in Hk.
    apply elem_of_cons in Hk as [->|Hk]; [|apply elem_of_cons in Hk as [->|Hk];
      [|apply elem_of_cons in Hk as [->|Hk]; [|by apply elem_of_nil in Hk]]].
    - rewrite process_lvq_pak_train in H. simpl in H.
      destruct (read_space_delimited _ _ _ _ _) as [[[d u] m]|] eqn:E; [|done].
      apply read_space_delimited_returns in E as (-> & _). simplify_eq/=. eauto.
    - rewrite process_lvq_pak_test in H. simpl in H.
      destruct (read_space_delimited _ _ _ _ _) as [[[d u] m]|] eqn:E; [|done].
      apply read_space_delimited_returns in E as (-> & _). simplify_eq/=. eauto.
    - rewrite process_lvq_pak_all in H.
      destruct (read_space_delimited _ _ [0; 1] _ _) as [[[d1 u1] m1]|]; [|done].
      simpl in H.
      destruct (read_space_delimited _ _ [0] _ _) as [[[d2 u2] m2]|]; [|done].
      simpl in H. destruct (np_vstack d1 d2); [|done]. simplify_eq/=. eauto. }
  destruct x as [[d u] m]. simpl in Hx. subst m.
  split; [done|]. split; [done|]. by intros ->.
Qed.

Lemma dataset_keeps_name_and_metadata_witness :
  ∃ r,
    returns (process_lvq_pak "/interim" sample_fs "lvq-pak" PyNone "all") = Ok r ∧
    r !! "dataset_name" = Some (PyStr "lvq-pak") ∧
    r !! "metadata" = Some (PyDict ∅).
Proof.
  destruct (returns (process_lvq_pak "/interim" sample_fs "lvq-pak" PyNone "all"))
    as [r|] eqn:E; [|by vm_compute in E].
  exists r. split; [reflexivity|].
  destruct (dataset_keeps_name_and_metadata "/interim" sample_fs "lvq-pak" PyNone
              "all" r E) as (Hn & _ & Hm).
  split; [exact Hn|]. exact (Hm eq_refl).
Defined.

(** * Quoted fields *)

(** Inside a quoted field every character but the quote joins the token. *)
Lemma quoted_run (d : dialect) (t : token) (p : parser_t) :
  state p = IN_QUOTED_FIELD → QUOTE ∉ t →
  foldM (tokenize_byte d) p t =
    Ok {| state := IN_QUOTED_FIELD; stream := rev t ++ stream p;
          line_fields := line_fields p; lines := lines p;
          file_lines := file_lines p; line_seen := line_seen p |}.
Proof.
  revert p. induction t as [|c t IH]; intros p Hst Hq.
  - simpl. by destruct p; simpl in *; subst.
  - apply not_elem_of_cons in Hq as [Hc Hq]. rewrite foldM_cons.
    assert (tokenize_byte d p c = Ok (push_char c p)) as ->.
    { unfold tokenize_byte, tokenize_in_record. rewrite Hst. unfold IS_QUOTE.
      by rewrite bool_decide_eq_false_2 by (by intros ->). }
    rewrite bind_Ok, IH by done. simpl. by rewrite <- app_assoc.
Qed.

(** Inside a quoted field of a skipped line nothing but the quote is seen. *)
Lemma quoted_run_skipped (d : dialect) (t : token) (p : parser_t) :
  state p = IN_QUOTED_FIELD_IN_SKIP_LINE → QUOTE ∉ t →
  foldM (tokenize_byte d) p t = Ok p.
Proof.
  intros Hst. induction t as [|c t IH]; intros Hq; [done|].
  apply not_elem_of_cons in Hq as [Hc Hq]. rewrite foldM_cons.
  assert (tokenize_byte d p c = Ok p) as ->.
  { unfold tokenize_byte. rewrite Hst. unfold IS_QUOTE.
    by rewrite bool_decide_eq_false_2 by (by intros ->). }
  rewrite bind_Ok. by apply IH.
Qed.

Lemma open_quote (skiprows : list nat) :
  tokenize_byte (space_dialect skiprows) parser_init QUOTE =
    Ok (at_state (if bool_decide (0 ∈ skiprows)
                  then IN_QUOTED_FIELD_IN_SKIP_LINE else IN_QUOTED_FIELD) 0 [] []).
Proof.
  change parser_init with (between_lines 0 []). rewrite tokenize_byte_start.
  by case_bool_decide.
Qed.



(** X15. A quote that is opened at the start of the file and never closed
    swallows the file: the call fails with the tokenizer's error for the end
    of the text inside a string, however many lines follow the quote; when
    the first line is skipped, all the file is skipped with it and the call
    fails for want of data. *)
Theorem open_quote_swallows_the_file
    (fs : filesystem) (filename : string) (skiprows : list nat)
    (class_labels : bool) (metadata : pyobj) (t : list ascii) :
  open_read fs filename = Ok (QUOTE :: t) → QUOTE ∉ t →
  read_space_delimited fs filename skiprows class_labels metadata =
    Err (if bool_decide (0 ∈ skiprows) then EmptyDataError
         else ParserError EOFInsideString).
Proof.
  intros Hopen Hq. unfold read_space_delimited.
  rewrite Hopen, bind_Ok. unfold read_csv.
  change {| delimiter := SPACE; commentchar := None; skipset := skiprows;
            skip_empty_lines := true |} with (space_dialect skiprows).
  rewrite tokenize_all_unfold, CHECK_FOR_BOM_head by done.
  rewrite foldM_cons, open_quote, bind_Ok.
  case_bool_decide.
  - by rewrite quoted_run_skipped.
  - by rewrite quoted_run.
Qed.

Lemma open_quote_swallows_the_file_witness :
  open_read open_quote_fs "open.dat" = Ok open_quote_text ∧
  read_space_delimited open_quote_fs "open.dat" [] true PyNone =
    Err (ParserError EOFInsideString).
Proof.
  assert (open_read open_quote_fs "open.dat" =
            Ok (QUOTE :: list_ascii_of_string
                           ("some label" +:+ nl +:+ "1.5 2.5" +:+ nl))) as H1
    by reflexivity.
  assert (QUOTE ∉ list_ascii_of_string ("some label" +:+ nl +:+ "1.5 2.5" +:+ nl))
    as H2 by by_computation.
  split; [exact H1|].
  exact (open_quote_swallows_the_file open_quote_fs "open.dat" [] true PyNone
           _ H1 H2).
Defined.
